(** * advancedlogger: formatters, logger facade and call wrappers

    A shallow embedding of [src/logger.py].  Python objects become records,
    dictionaries become [gmap]s, the handler list of a logger is a list that
    is updated the way [logging.Logger.addHandler] / [removeHandler] do it,
    and the decorators run in a small state-and-exception monad.

    What the standard library supplies (time formatting, the text of the
    current traceback, the wall clock, [repr], the file system's willingness
    to open a path) is collected in the class [Runtime]; every definition and
    theorem is generic in it. *)

From Stdlib Require Import ZArith String Ascii List Bool Lia.
From stdpp Require Import base gmap strings list.

Local Open Scope string_scope.
Local Open Scope Z_scope.

(** ** Python strings *)

Module PyStr.

(** [len(s)] as a Python int. *)
Definition len (s : string) : Z := Z.of_nat (String.length s).

(** [n] spaces. *)
Fixpoint spaces (n : nat) : string :=
  match n with
  | O => ""
  | S n' => String " " (spaces n')
  end.

(** [s.ljust(width)]: [s] itself when [width <= len(s)], otherwise [s]
    followed by [width - len(s)] spaces. *)
Definition ljust (s : string) (width : Z) : string :=
  s +:+ spaces (Z.to_nat (width - len s)).

(** The first [n] characters of [s] (all of [s] when it is shorter). *)
Fixpoint take (n : nat) (s : string) : string :=
  match n, s with
  | O, _ => ""
  | S _, EmptyString => ""
  | S n', String c s' => String c (take n' s')
  end.

(** [s[:stop]]: a negative [stop] counts from the end, and the bounds are
    clamped to [0 .. len(s)]. *)
Definition slice_to (s : string) (stop : Z) : string :=
  if 0 <=? stop then take (Z.to_nat stop) s
  else take (Z.to_nat (len s + stop)) s.

(** Truth value of a string: empty strings are false. *)
Definition truthy (s : string) : bool := 0 <? len s.

(** ["\033"], the escape character that opens an ANSI colour code. *)
Definition ESC : string := String (ascii_of_nat 27) "".

(** ["\n"] *)
Definition NL : string := String (ascii_of_nat 10) "".

(** [s] starts with [p]. *)
Fixpoint startswith (p s : string) : bool :=
  match p, s with
  | EmptyString, _ => true
  | String a p', String b s' => Ascii.eqb a b && startswith p' s'
  | String _ _, EmptyString => false
  end.

End PyStr.

(** ** Level names and colours *)

Module logging.
Definition DEBUG : Z := 10.
Definition INFO : Z := 20.
Definition WARNING : Z := 30.
Definition ERROR : Z := 40.
Definition CRITICAL : Z := 50.
End logging.

(** [LOG_LEVELS]: custom log level names. *)
Definition LOG_LEVELS : gmap Z string :=
  list_to_map
    [ (logging.DEBUG, "DBG");
      (logging.INFO, "INF");
      (logging.WARNING, "WRN");
      (logging.ERROR, "ERR");
      (logging.CRITICAL, "CRT") ].

(** [COLORS]: ANSI colour codes for the log level in console output. *)
Definition COLORS : gmap string string :=
  list_to_map
    [ ("DBG", PyStr.ESC +:+ "[90m");
      ("INF", PyStr.ESC +:+ "[92m");
      ("WRN", PyStr.ESC +:+ "[93m");
      ("ERR", PyStr.ESC +:+ "[91m");
      ("CRT", PyStr.ESC +:+ "[91m");
      ("RESET", PyStr.ESC +:+ "[0m") ].

(** [COLORS['RESET']] *)
Definition COLORS_RESET : string := default "" (COLORS !! "RESET").

(** [MAX_FIELD_WIDTH]: fixed field width for module.function alignment. *)
Definition MAX_FIELD_WIDTH : Z := 20.

(** [d.get(k, dflt)] *)
Definition dict_get {K V} `{Countable K} (d : gmap K V) (k : K) (dflt : V) : V :=
  default dflt (d !! k).

(** ** Exceptions and log records *)

(** A raised Python exception: its identity, whether its class derives from
    [Exception] (as opposed to only from [BaseException], like
    [KeyboardInterrupt] or [SystemExit]), and [str(e)]. *)
Record PyExc := mkPyExc {
  exc_ident : nat;
  exc_is_Exception : bool;
  exc_str : string
}.

(** [logging.LogRecord], with the attributes the formatters read.
    [exc_info] is what the formatters test for truth: [None] for a record
    made without exception information, [Some None] for the empty triple
    [(None, None, None)] that [exc_info=True] stores when no exception is
    being handled, [Some (Some e)] for the triple of the exception [e].
    [message] is the value of [record.getMessage()], and [args_fit] tells
    whether that call can be evaluated: it raises when the arguments of
    the logging call do not fit the message. *)
Record LogRecord := mkLogRecord {
  levelno : Z;
  module_ : string;
  funcName : string;
  message : string;
  created : Z;
  exc_info : option (option PyExc);
  args_fit : bool
}.

(** What the Python runtime and standard library provide. *)
Class Runtime := {
  (** [logging.Formatter.formatTime(record, datefmt)], and whether the
      call raises instead of returning (a format the platform's
      [strftime] refuses) *)
  formatTime : LogRecord -> option string -> string;
  formatTime_raises : LogRecord -> option string -> bool;
  (** [sys.maxsize], the largest value of the index type of strings *)
  sys_maxsize : Z;
  (** whether a string of that many characters can be allocated *)
  can_allocate : Z -> bool;
  (** [traceback.format_exc()] given the exception being handled, if any *)
  traceback_format_exc : option PyExc -> string;
  (** [os.path.dirname] *)
  os_path_dirname : string -> string;
  (** whether [ensure_parent(path)] and opening [path] for append succeed *)
  openable : string -> bool;
  (** the successive values returned by [time.time()], in microseconds *)
  time_time : nat -> Z;
  (** ["{:.4f}".format(t2 - t1)] *)
  format_seconds : Z -> string;
  (** [repr] of a string *)
  repr : string -> string
}.

(** ** Formatters *)

(** [level = LOG_LEVELS.get(record.levelno, "UNK")] *)
Definition level_name (record : LogRecord) : string :=
  dict_get LOG_LEVELS (levelno record) "UNK".

(** [color = COLORS.get(level, COLORS["RESET"])] *)
Definition level_color (record : LogRecord) : string :=
  dict_get COLORS (level_name record) COLORS_RESET.

(** The caller field, computed the same way by both formatters:
    ["|{}.{}".format(record.module, record.funcName).ljust(w)[:w]]. *)
Definition module_function (put_func_name : bool) (max_width : Z) (record : LogRecord) : string :=
  if put_func_name then
    PyStr.slice_to
      (PyStr.ljust ("|" +:+ module_ record +:+ "." +:+ funcName record) max_width)
      max_width
  else "".

(** The timestamp, computed the same way by both formatters. *)
Definition timestamp `{Runtime} (time_format : option string) (record : LogRecord) : string :=
  match time_format with
  | Some fmt => if 0 <? PyStr.len fmt then formatTime record (Some fmt)
                else formatTime record None
  | None => formatTime record None
  end.

(** Whether [s.ljust(width)] raises: [OverflowError] when [width] does not
    fit the index type, [MemoryError] when the padded string cannot be
    allocated.  (The slice [[:width]] clamps its bound and never
    raises.) *)
Definition ljust_raises `{Runtime} (s : string) (width : Z) : bool :=
  (width <? - sys_maxsize - 1) || (sys_maxsize <? width) ||
  ((PyStr.len s <? width) && negb (can_allocate width)).

(** Whether computing the caller field raises. *)
Definition module_function_raises `{Runtime} (put_func_name : bool) (max_width : Z)
    (record : LogRecord) : bool :=
  put_func_name &&
  ljust_raises ("|" +:+ module_ record +:+ "." +:+ funcName record) max_width.

(** Whether computing the timestamp raises. *)
Definition timestamp_raises `{Runtime} (time_format : option string) (record : LogRecord) : bool :=
  match time_format with
  | Some fmt => if 0 <? PyStr.len fmt then formatTime_raises record (Some fmt)
                else formatTime_raises record None
  | None => formatTime_raises record None
  end.

(** [cs = "|{}".format(self.custom_str) if len(self.custom_str) > 0 else ""] *)
Definition custom_field (custom_str : string) : string :=
  if 0 <? PyStr.len custom_str then "|" +:+ custom_str else "".

(** ["[{}{}{}|{}] {}".format(timestamp, module_function, cs, level_str, msg)] *)
Definition assemble (ts mf cs level_str msg : string) : string :=
  "[" +:+ ts +:+ mf +:+ cs +:+ "|" +:+ level_str +:+ "] " +:+ msg.

(** The two statements
    [if record.levelno >= logging.ERROR:
         log_msg += "\n{}".format(traceback.format_exc()) if record.exc_info else ""]. *)
Definition append_traceback `{Runtime} (ambient : option PyExc) (record : LogRecord)
    (log_msg : string) : string :=
  if logging.ERROR <=? levelno record then
    log_msg +:+ (match exc_info record with
                 | Some _ => PyStr.NL +:+ traceback_format_exc ambient
                 | None => ""
                 end)
  else log_msg.

Module ConsoleFormatter.

Record t := mk {
  custom_str : string;
  max_width : Z;
  put_func_name : bool;
  time_format : option string;
  colored_level : bool;
  colored_log : bool
}.

(** [self.colored_level = v] *)
Definition set_colored_level (v : bool) (self : t) : t :=
  mk (custom_str self) (max_width self) (put_func_name self) (time_format self)
     v (colored_log self).

(** [self.colored_log = v] *)
Definition set_colored_log (v : bool) (self : t) : t :=
  mk (custom_str self) (max_width self) (put_func_name self) (time_format self)
     (colored_level self) v.

(** [ConsoleFormatter.__init__] *)
Definition init (put_func_name_ : bool) (max_width_ : Z) (custom_str_ : string)
    (time_format_ : option string) (colored_level_ colored_log_ : bool) : t :=
  let self :=
    mk custom_str_ max_width_ put_func_name_ time_format_ colored_level_ colored_log_ in
  let self := if colored_log self then set_colored_level true self else self in
  let self := if negb (colored_level self) then set_colored_log false self else self in
  self.

(** The test [self.colored_log and level != "INF"], made twice by
    [format]. *)
Definition whole_line (self : t) (record : LogRecord) : bool :=
  colored_log self && negb (String.eqb (level_name record) "INF").

(** [level_str]: the level token ("Apply color to log level"). *)
Definition level_str (self : t) (record : LogRecord) : string :=
  let level := level_name record in
  let color := level_color record in
  if colored_level self then
    if colored_log self && negb (String.eqb level "INF") then level
    else color +:+ level +:+ COLORS_RESET
  else level.

(** [ConsoleFormatter.format]: the string it returns when its evaluation
    goes through (see [format_raises]). *)
Definition format `{Runtime} (self : t) (ambient : option PyExc) (record : LogRecord) : string :=
  let level := level_name record in
  let color := level_color record in
  let timestamp := timestamp (time_format self) record in
  let module_function := module_function (put_func_name self) (max_width self) record in
  let level_str := level_str self record in
  let cs := custom_field (custom_str self) in
  let log_msg := assemble timestamp module_function cs level_str (message record) in
  let log_msg := append_traceback ambient record log_msg in
  let log_msg :=
    if colored_log self && negb (String.eqb level "INF")
    then color +:+ log_msg +:+ COLORS_RESET
    else log_msg in
  log_msg.

(** Whether [ConsoleFormatter.format] raises instead of returning: in
    [formatTime], in [ljust] or in [record.getMessage()]. *)
Definition format_raises `{Runtime} (self : t) (record : LogRecord) : bool :=
  timestamp_raises (time_format self) record ||
  module_function_raises (put_func_name self) (max_width self) record ||
  negb (args_fit record).

End ConsoleFormatter.

Module FileFormatter.

Record t := mk {
  max_width : Z;
  custom_str : string;
  put_func_name : bool;
  time_format : option string
}.

(** [FileFormatter.__init__] *)
Definition init (put_func_name : bool) (max_width : Z) (custom_str : string)
    (time_format : option string) : t :=
  mk max_width custom_str put_func_name time_format.

(** [FileFormatter.format]: the string it returns when its evaluation
    goes through (see [format_raises]). *)
Definition format `{Runtime} (self : t) (ambient : option PyExc) (record : LogRecord) : string :=
  let level := level_name record in
  let timestamp := timestamp (time_format self) record in
  let module_function := module_function (put_func_name self) (max_width self) record in
  let cs := custom_field (custom_str self) in
  let log_msg := assemble timestamp module_function cs level (message record) in
  let log_msg := append_traceback ambient record log_msg in
  log_msg.

(** Whether [FileFormatter.format] raises instead of returning. *)
Definition format_raises `{Runtime} (self : t) (record : LogRecord) : bool :=
  timestamp_raises (time_format self) record ||
  module_function_raises (put_func_name self) (max_width self) record ||
  negb (args_fit record).

End FileFormatter.

(** ** Handlers and what they write *)

(** Where a handler writes: [sys.stdout], or the file it opened. *)
Inductive Stream :=
| Stdout
| FileStream (baseFilename : string) (mode : string).

(** The formatter object installed on a handler. *)
Inductive Formatter :=
| ConsoleF (f : ConsoleFormatter.t)
| FileF (f : FileFormatter.t).

(** The two handler classes of the standard library that the module
    instantiates.  [logging.FileHandler] is declared as
    [class FileHandler(StreamHandler)]. *)
Inductive HandlerClass := StreamHandler | FileHandler.

(** [issubclass(c, d)] for these two classes. *)
Definition issubclass (c d : HandlerClass) : bool :=
  match c, d with
  | StreamHandler, StreamHandler => true
  | StreamHandler, FileHandler => false
  | FileHandler, StreamHandler => true
  | FileHandler, FileHandler => true
  end.

(** Everything written so far: one list entry per [stream.write] call. *)
Record Output := mkOutput {
  stdout : list string;
  files : gmap string (list string)
}.

(** The writes a file has received (none when it does not exist). *)
Definition file_content (out : Output) (path : string) : list string :=
  default [] (files out !! path).

Module Handler.

Record t := mk {
  ident : nat;            (* object identity *)
  stream : Stream;
  level : Z;
  formatter : Formatter
}.

(** [logging.StreamHandler(sys.stdout)], then [setLevel], [setFormatter] *)
Definition new_console (id : nat) (lvl : Z) (f : Formatter) : t :=
  mk id Stdout lvl f.

(** [logging.FileHandler(path, mode=..., encoding="utf-8")], then
    [setLevel], [setFormatter] *)
Definition new_file (id : nat) (path mode : string) (lvl : Z) (f : Formatter) : t :=
  mk id (FileStream path mode) lvl f.

(** [type(h)]: the console handler is a plain [StreamHandler] on
    [sys.stdout]; a handler that opened a file is a [FileHandler]. *)
Definition class (h : t) : HandlerClass :=
  match stream h with
  | Stdout => StreamHandler
  | FileStream _ _ => FileHandler
  end.

(** [isinstance(h, c)] *)
Definition isinstance (h : t) (c : HandlerClass) : bool := issubclass (class h) c.

(** [h.setFormatter(f)] *)
Definition setFormatter (f : Formatter) (h : t) : t :=
  mk (ident h) (stream h) (level h) f.

(** [h.format(record)] *)
Definition format `{Runtime} (h : t) (ambient : option PyExc) (record : LogRecord) : string :=
  match formatter h with
  | ConsoleF f => ConsoleFormatter.format f ambient record
  | FileF f => FileFormatter.format f ambient record
  end.

(** Whether [h.format(record)] raises. *)
Definition format_raises `{Runtime} (h : t) (record : LogRecord) : bool :=
  match formatter h with
  | ConsoleF f => ConsoleFormatter.format_raises f record
  | FileF f => FileFormatter.format_raises f record
  end.

(** [h.emit(record)]: [stream.write(self.format(record) + terminator)]
    inside [try ... except Exception: self.handleError(record)]; when the
    formatting raises, nothing is written to the stream ([handleError]
    reports on [sys.stderr]).  Writing to an open stream is taken to
    succeed. *)
Definition emit `{Runtime} (h : t) (ambient : option PyExc) (record : LogRecord)
    (out : Output) : Output :=
  if format_raises h record then out
  else
    let line := format h ambient record +:+ PyStr.NL in
    match stream h with
    | Stdout => mkOutput (stdout out ++ [line])%list (files out)
    | FileStream path _ =>
        mkOutput (stdout out) (<[path := (file_content out path ++ [line])%list]> (files out))
    end.

(** [h.handle(record)]: emit when the record passes the handler's level. *)
Definition handle `{Runtime} (h : t) (ambient : option PyExc) (record : LogRecord)
    (out : Output) : Output :=
  if level h <=? levelno record then emit h ambient record out else out.

End Handler.

#[global] Instance PyExc_eq_dec : EqDecision PyExc.
Proof. solve_decision. Defined.
#[global] Instance Stream_eq_dec : EqDecision Stream.
Proof. solve_decision. Defined.
#[global] Instance ConsoleFormatter_eq_dec : EqDecision ConsoleFormatter.t.
Proof. solve_decision. Defined.
#[global] Instance FileFormatter_eq_dec : EqDecision FileFormatter.t.
Proof. solve_decision. Defined.
#[global] Instance Formatter_eq_dec : EqDecision Formatter.
Proof. solve_decision. Defined.
#[global] Instance Handler_eq_dec : EqDecision Handler.t.
Proof. solve_decision. Defined.

(** [isinstance(h, logging.FileHandler)] and its negation, as list filters. *)
Definition is_file_handler (h : Handler.t) : bool := Handler.isinstance h FileHandler.
Definition not_file_handler (h : Handler.t) : bool := negb (Handler.isinstance h FileHandler).

(** [l.remove(x)] for an [x] known to be in [l]: drops the first element
    equal to [x]. *)
Fixpoint py_list_remove {A} `{EqDecision A} (x : A) (l : list A) : list A :=
  match l with
  | [] => []
  | y :: l' => if decide (x = y) then l' else y :: py_list_remove x l'
  end.

(** How a call that may fail on the file system ends. *)
Inductive Completion := Normal | RaisedOSError.

(** The five logging methods. *)
Inductive Severity := DEBUG | INFO | WARNING | ERROR | CRITICAL.

(** The level number each of them logs at. *)
Definition severity_levelno (s : Severity) : Z :=
  match s with
  | DEBUG => logging.DEBUG
  | INFO => logging.INFO
  | WARNING => logging.WARNING
  | ERROR => logging.ERROR
  | CRITICAL => logging.CRITICAL
  end.

(** One call of [debug] / [info] / [warning] / [error] / [critical]: the
    message, the caller the logging machinery found, the exception
    information it stored on the record (see [LogRecord]), the exception
    being handled while the call runs, and whether the arguments of the
    call fit the message. *)
Record LogCall := mkLogCall {
  lc_severity : Severity;
  lc_msg : string;
  lc_module : string;
  lc_funcName : string;
  lc_created : Z;
  lc_exc_info : option (option PyExc);
  lc_ambient : option PyExc;
  lc_args_fit : bool
}.

(** ** Running Python code: state and exceptions *)

(** A logger object, referred to by its name. *)
Definition LoggerRef := string.

(** One call of a logging method, as the logger receives it.  [e_exc_info]
    is the exception captured by [exc_info=True]. *)
Record Entry := mkEntry {
  e_logger : LoggerRef;
  e_level : Z;
  e_msg : string;
  e_exc_info : option PyExc
}.

(** What a journal entry says apart from its text: the logger, the level
    and the attached exception. *)
Definition entry_kind (en : Entry) : LoggerRef * Z * option PyExc :=
  (e_logger en, e_level en, e_exc_info en).

(** How a call ends: with a value or with a raised exception. *)
Inductive Outcome (X : Type) :=
| Returned (x : X)
| Raised (e : PyExc).
Arguments Returned {X} x.
Arguments Raised {X} e.

(** What a wrapper can change: the logging calls made so far, the number of
    [time.time()] readings taken, and the state [St] the wrapped callable
    works on. *)
Record World (St : Type) := mkWorld {
  journal : list Entry;
  clock : nat;
  cstate : St
}.
Arguments mkWorld {St} journal clock cstate.
Arguments journal {St} _.
Arguments clock {St} _.
Arguments cstate {St} _.

(** A Python callable: its [__name__] and what calling it does. *)
Record Callable (A St V : Type) := mkCallable {
  __name__ : string;
  body : A -> St -> Outcome V * St
}.
Arguments mkCallable {A St V} __name__ body.
Arguments __name__ {A St V} _.
Arguments body {A St V} _.

(** Computations over a world that may raise. *)
Definition Py (St X : Type) : Type := World St -> Outcome X * World St.

#[global] Instance Py_ret {St} : MRet (Py St) := λ X x w, (Returned x, w).

#[global] Instance Py_bind {St} : MBind (Py St) :=
  λ X Y k m w,
    match m w with
    | (Returned x, w') => k x w'
    | (Raised e, w') => (Raised e, w')
    end.

(** [raise e] (and the bare [raise] inside the handler of [e]) *)
Definition raise {St X} (e : PyExc) : Py St X := λ w, (Raised e, w).

(** [try: body  except Exception as e: handler e] *)
Definition try_except_Exception {St X} (body_ : Py St X) (handler : PyExc -> Py St X) : Py St X :=
  λ w,
    match body_ w with
    | (Returned x, w') => (Returned x, w')
    | (Raised e, w') => if exc_is_Exception e then handler e w' else (Raised e, w')
    end.

(** [time.time()] *)
Definition time_now `{Runtime} {St} : Py St Z :=
  λ w, (Returned (time_time (clock w)), mkWorld (journal w) (S (clock w)) (cstate w)).

(** [logger.log(level, msg, exc_info=...)] *)
Definition logger_log {St} (logger : LoggerRef) (lvl : Z) (msg : string)
    (exc : option PyExc) : Py St unit :=
  λ w, (Returned tt,
        mkWorld (journal w ++ [mkEntry logger lvl msg exc])%list (clock w) (cstate w)).

Definition logger_info {St} (logger : LoggerRef) (msg : string) : Py St unit :=
  logger_log logger logging.INFO msg None.

Definition logger_warning {St} (logger : LoggerRef) (msg : string) : Py St unit :=
  logger_log logger logging.WARNING msg None.

(** [logger.error(msg, exc_info=True)] while [e] is being handled *)
Definition logger_error {St} (logger : LoggerRef) (msg : string) (e : PyExc) : Py St unit :=
  logger_log logger logging.ERROR msg (Some e).

(** The call of [func] with the arguments the wrapper received *)
Definition invoke {A St V} (func : Callable A St V) (args : A) : Py St V :=
  λ w, let '(o, s') := body func args (cstate w) in
       (o, mkWorld (journal w) (clock w) s').

(** [if b: m] *)
Definition when {St} (b : bool) (m : Py St unit) : Py St unit :=
  if b then m else mret tt.

(** An object with attributes that may hold a logger ([None] is stored as
    [None]). *)
Record PyObject := mkPyObject {
  attrs : gmap string (option LoggerRef)
}.

(** [getattr(obj, name, None)] *)
Definition getattr (obj : PyObject) (name : string) : option LoggerRef :=
  match attrs obj !! name with
  | Some v => v
  | None => None
  end.

(** ** The decorators *)

(** The module-level [log_funcall(logger, default, skip, verbose)(func)]:
    the wrapper it returns, applied to its arguments. *)
Definition log_funcall `{Runtime} {A St V} (logger : LoggerRef) (default : V)
    (skip verbose : bool) (func : Callable A St V) (args : A) : Py St V :=
  try_except_Exception
    (when verbose (logger_info logger ("Calling " +:+ __name__ func +:+ " ..."));;
     t1 ← time_now;
     result ← invoke func args;
     t2 ← time_now;
     when verbose
       (logger_info logger
          ("Finished " +:+ __name__ func +:+ " in " +:+ format_seconds (t2 - t1)
           +:+ " seconds."));;
     mret result)
    (λ e,
       logger_error logger ("Error in " +:+ __name__ func +:+ ": " +:+ exc_str e) e;;
       if skip then
         logger_warning logger ("Skipping " +:+ __name__ func +:+ " due to error.");;
         mret default
       else raise e).

Module MethodLogger.

Record t (V : Type) := mk {
  _logger : option LoggerRef;
  default : V;
  skip : bool;
  verbose : bool;
  loggerVarName : string
}.
Arguments mk {V} _logger default skip verbose loggerVarName.
Arguments _logger {V} _.
Arguments default {V} _.
Arguments skip {V} _.
Arguments verbose {V} _.
Arguments loggerVarName {V} _.

(** [self._logger or getattr(obj, self.loggerVarName, None)]; logger
    objects are true. *)
Definition resolve {V} (self : t V) (obj : PyObject) : option LoggerRef :=
  match _logger self with
  | Some l => Some l
  | None => getattr obj (loggerVarName self)
  end.

(** [if self.verbose and logger: logger.info(msg)] *)
Definition info_if {St} (verbose_ : bool) (logger : option LoggerRef) (msg : string) : Py St unit :=
  match verbose_, logger with
  | true, Some l => logger_info l msg
  | _, _ => mret tt
  end.

(** [MethodLogger.__call__(func)]: the wrapper it returns, applied to the
    receiving object and its other arguments. *)
Definition call `{Runtime} {A St V} (self : t V) (func : Callable (PyObject * A) St V)
    (obj : PyObject) (args : A) : Py St V :=
  let logger := resolve self obj in
  try_except_Exception
    (info_if (verbose self) logger ("Calling " +:+ __name__ func);;
     t1 ← time_now;
     result ← invoke func (obj, args);
     t2 ← time_now;
     info_if (verbose self) logger
       ("Finished " +:+ __name__ func +:+ " in " +:+ format_seconds (t2 - t1)
        +:+ " seconds");;
     mret result)
    (λ e,
       match logger with
       | Some l =>
           logger_error l ("Error in " +:+ __name__ func +:+ ": " +:+ exc_str e) e;;
           if skip self then
             logger_warning l ("Skipping " +:+ __name__ func +:+ " due to error.");;
             mret (default self)
           else
             (* falls out of [if logger:] to the statements below *)
             if skip self then mret (default self) else raise e
       | None =>
           if skip self then mret (default self) else raise e
       end).

End MethodLogger.

(** ** The logger facade *)

Module AdvancedLogger.

Record t := mk {
  name : string;
  log_file : option string;
  log_dir : option string;
  max_width : Z;
  custom_str : string;
  put_func_name : bool;
  time_format : option string;
  colored_level : bool;
  colored_log : bool;
  level : Z;
  handlers : list Handler.t;
  next_ident : nat       (* identity given to the next handler object *)
}.

Definition with_handlers (hs : list Handler.t) (n : nat) (self : t) : t :=
  mk (name self) (log_file self) (log_dir self) (max_width self) (custom_str self)
     (put_func_name self) (time_format self) (colored_level self) (colored_log self)
     (level self) hs n.

Definition with_log_file (f d : option string) (self : t) : t :=
  mk (name self) f d (max_width self) (custom_str self)
     (put_func_name self) (time_format self) (colored_level self) (colored_log self)
     (level self) (handlers self) (next_ident self).

Definition with_max_width (v : Z) (self : t) : t :=
  mk (name self) (log_file self) (log_dir self) v (custom_str self)
     (put_func_name self) (time_format self) (colored_level self) (colored_log self)
     (level self) (handlers self) (next_ident self).

Definition with_custom_str (v : string) (self : t) : t :=
  mk (name self) (log_file self) (log_dir self) (max_width self) v
     (put_func_name self) (time_format self) (colored_level self) (colored_log self)
     (level self) (handlers self) (next_ident self).

Definition with_put_func_name (v : bool) (self : t) : t :=
  mk (name self) (log_file self) (log_dir self) (max_width self) (custom_str self)
     v (time_format self) (colored_level self) (colored_log self)
     (level self) (handlers self) (next_ident self).

Definition with_time_format (v : option string) (self : t) : t :=
  mk (name self) (log_file self) (log_dir self) (max_width self) (custom_str self)
     (put_func_name self) v (colored_level self) (colored_log self)
     (level self) (handlers self) (next_ident self).

Definition with_colored_level (v : bool) (self : t) : t :=
  mk (name self) (log_file self) (log_dir self) (max_width self) (custom_str self)
     (put_func_name self) (time_format self) v (colored_log self)
     (level self) (handlers self) (next_ident self).

Definition with_colored_log (v : bool) (self : t) : t :=
  mk (name self) (log_file self) (log_dir self) (max_width self) (custom_str self)
     (put_func_name self) (time_format self) (colored_level self) v
     (level self) (handlers self) (next_ident self).

(** [ConsoleFormatter(put_func_name=self.put_func_name, ...)] *)
Definition console_formatter (self : t) : Formatter :=
  ConsoleF (ConsoleFormatter.init (put_func_name self) (max_width self) (custom_str self)
              (time_format self) (colored_level self) (colored_log self)).

(** [FileFormatter(put_func_name=self.put_func_name, ...)] *)
Definition file_formatter (self : t) : Formatter :=
  FileF (FileFormatter.init (put_func_name self) (max_width self) (custom_str self)
           (time_format self)).

(** [logging.Logger.addHandler]: append unless already present. *)
Definition addHandler (h : Handler.t) (self : t) : t :=
  if bool_decide (h ∈ handlers self) then self
  else with_handlers (handlers self ++ [h])%list (next_ident self) self.

(** [logging.Logger.removeHandler]: remove when present. *)
Definition removeHandler (h : Handler.t) (self : t) : t :=
  if bool_decide (h ∈ handlers self)
  then with_handlers (py_list_remove h (handlers self)) (next_ident self) self
  else self.

(** A new object identity. *)
Definition fresh (self : t) : nat * t :=
  (next_ident self, with_handlers (handlers self) (S (next_ident self)) self).

(** [AdvancedLogger.__init__]; [None] when creating the file handler
    raises. *)
Definition init `{Runtime} (name_ : string) (log_file_ : option string)
    (put_func_name_ : bool) (max_width_ : Z) (custom_str_ : string)
    (time_format_ : option string) (colored_level_ colored_log_ : bool) : option t :=
  let self :=
    mk name_ log_file_
       (match log_file_ with None => None | Some p => Some (os_path_dirname p) end)
       max_width_ custom_str_ put_func_name_ time_format_ colored_level_ colored_log_
       logging.DEBUG [] 0 in
  let '(id, self) := fresh self in
  let console_handler :=
    Handler.new_console id logging.DEBUG
      (ConsoleF (ConsoleFormatter.init put_func_name_ max_width_ custom_str_
                   time_format_ colored_level_ colored_log_)) in
  let self := addHandler console_handler self in
  match log_file_ with
  | Some p =>
      if PyStr.truthy p then
        if openable p then
          let '(id, self) := fresh self in
          let file_handler :=
            Handler.new_file id p "a" logging.DEBUG
              (FileF (FileFormatter.init put_func_name_ max_width_ custom_str_
                        time_format_)) in
          Some (addHandler file_handler self)
        else None
      else Some self
  | None => Some self
  end.

(** [AdvancedLogger.reset_formatters] *)
Definition reset_formatters (self : t) : t :=
  with_handlers
    (map (fun h =>
            if Handler.isinstance h StreamHandler then
              Handler.setFormatter (console_formatter self) h
            else if Handler.isinstance h FileHandler then
              Handler.setFormatter (file_formatter self) h
            else h)
         (handlers self))
    (next_ident self) self.

(** [AdvancedLogger.reset_defaults] *)
Definition reset_defaults (self : t) : t :=
  let self := with_put_func_name true self in
  let self := with_max_width MAX_FIELD_WIDTH self in
  let self := with_custom_str "" self in
  let self := with_time_format None self in
  let self := with_colored_level true self in
  let self := with_colored_log false self in
  reset_formatters self.

(** The loop of [set_file] that removes the existing file handlers; it
    runs over a copy of the handler list. *)
Definition remove_file_handlers (self : t) : t :=
  fold_left (fun self h =>
               if Handler.isinstance h FileHandler then removeHandler h self else self)
            (handlers self) self.

(** [AdvancedLogger.set_file] *)
Definition set_file `{Runtime} (log_file_ : string) (self : t) : Completion * t :=
  let self := remove_file_handlers self in
  if openable log_file_ then
    let '(id, self) := fresh self in
    let fh := Handler.new_file id log_file_ "a" logging.DEBUG (file_formatter self) in
    let self := addHandler fh self in
    let self := with_log_file (Some log_file_) (Some (os_path_dirname log_file_)) self in
    (Normal, self)
  else (RaisedOSError, self).

(** [AdvancedLogger.set_custom_str] *)
Definition set_custom_str (custom_str_ : string) (self : t) : t :=
  reset_formatters (with_custom_str custom_str_ self).

(** [AdvancedLogger.set_put_func_name] *)
Definition set_put_func_name (put_func_name_ : bool) (self : t) : t :=
  reset_formatters (with_put_func_name put_func_name_ self).

(** [AdvancedLogger.set_max_width] *)
Definition set_max_width (max_width_ : Z) (self : t) : t :=
  reset_formatters (with_max_width max_width_ self).

(** [AdvancedLogger.set_time_format] *)
Definition set_time_format (time_format_ : option string) (self : t) : t :=
  reset_formatters (with_time_format time_format_ self).

(** [AdvancedLogger.set_coloring] *)
Definition set_coloring (colored_level_ colored_log_ : bool) (self : t) : t :=
  let self := with_colored_level colored_level_ self in
  let self := with_colored_log colored_log_ self in
  reset_formatters self.

(** [logging.Logger.callHandlers] *)
Definition callHandlers `{Runtime} (self : t) (ambient : option PyExc)
    (record : LogRecord) (out : Output) : Output :=
  fold_left (fun out h => Handler.handle h ambient record out) (handlers self) out.

(** The record a logging method builds for a call. *)
Definition makeRecord (c : LogCall) : LogRecord :=
  mkLogRecord (severity_levelno (lc_severity c)) (lc_module c) (lc_funcName c)
              (lc_msg c) (lc_created c) (lc_exc_info c) (lc_args_fit c).

(** [self.debug(...)], [self.info(...)], ...: build the record when the
    logger is enabled for the level, and hand it to the handlers. *)
Definition log `{Runtime} (self : t) (c : LogCall) (out : Output) : Output :=
  if level self <=? severity_levelno (lc_severity c)
  then callHandlers self (lc_ambient c) (makeRecord c) out
  else out.

(** A run of logging calls with no reconfiguration in between. *)
Definition log_all `{Runtime} (self : t) (cs : list LogCall) (out : Output) : Output :=
  fold_left (fun out c => log self c out) cs out.

(** [AdvancedLogger.log_funcall(default, skip, verbose)(func)]: the
    wrapper it returns, applied to its arguments. *)
Definition log_funcall `{Runtime} {A St V} (self : t) (default : V)
    (skip verbose : bool) (func : Callable A St V) (args : A) : Py St V :=
  when verbose (logger_info (name self) ("Calling " +:+ repr (__name__ func) +:+ " ..."));;
  try_except_Exception
    (t1 ← time_now;
     result ← invoke func args;
     t2 ← time_now;
     when verbose
       (logger_info (name self)
          ("Finished " +:+ repr (__name__ func) +:+ " in " +:+ format_seconds (t2 - t1)
           +:+ " seconds."));;
     mret result)
    (λ e,
       logger_error (name self)
         ("Error in " +:+ repr (__name__ func) +:+ ": " +:+ exc_str e) e;;
       if skip then
         logger_warning (name self)
           ("Skipping " +:+ repr (__name__ func) +:+ " due to error.");;
         mret default
       else raise e).

End AdvancedLogger.

(** A reconfiguration call on a logger. *)
Inductive ConfigOp :=
| SetFile (log_file : string)
| SetCustomStr (custom_str : string)
| SetPutFuncName (put_func_name : bool)
| SetMaxWidth (max_width : Z)
| SetTimeFormat (time_format : option string)
| SetColoring (colored_level colored_log : bool)
| ResetDefaults.

(** The logger after a reconfiguration call (for [set_file], also when the
    call raised). *)
Definition apply_op `{Runtime} (op : ConfigOp) (self : AdvancedLogger.t) : AdvancedLogger.t :=
  match op with
  | SetFile p => snd (AdvancedLogger.set_file p self)
  | SetCustomStr s => AdvancedLogger.set_custom_str s self
  | SetPutFuncName b => AdvancedLogger.set_put_func_name b self
  | SetMaxWidth w => AdvancedLogger.set_max_width w self
  | SetTimeFormat tf => AdvancedLogger.set_time_format tf self
  | SetColoring cl cg => AdvancedLogger.set_coloring cl cg self
  | ResetDefaults => AdvancedLogger.reset_defaults self
  end.

(** The logger after a sequence of reconfiguration calls. *)
Definition apply_ops `{Runtime} (ops : list ConfigOp) (self : AdvancedLogger.t) : AdvancedLogger.t :=
  fold_left (fun self op => apply_op op self) ops self.

(** What every logger built by [__init__] and reconfigured through its
    methods satisfies: it and its handlers are at level DEBUG, it has one
    console handler, and every formatter reflects the current settings. *)
Definition well_formed (self : AdvancedLogger.t) : Prop :=
  AdvancedLogger.level self = logging.DEBUG /\
  (exists h, List.filter not_file_handler (AdvancedLogger.handlers self) = [h] /\
             Handler.formatter h = AdvancedLogger.console_formatter self) /\
  Forall (fun h => Handler.level h = logging.DEBUG /\
                   (Handler.formatter h = AdvancedLogger.console_formatter self \/
                    Handler.formatter h = AdvancedLogger.file_formatter self))
         (AdvancedLogger.handlers self).

(** The entries a run added to the journal of [w] are of the given kinds. *)
Definition logged {St X} (w : World St) (r : Outcome X * World St)
    (kinds : list (LoggerRef * Z * option PyExc)) : Prop :=
  exists new, journal (snd r) = (journal w ++ new)%list /\ map entry_kind new = kinds.

(** ** A concrete runtime for the examples

    Fixed timestamp text that never fails, a 64-bit index type, room for
    strings of up to a million characters, a one-line traceback, every
    path under [logs/] can be opened, and the clock advances by one
    millisecond per reading. *)
Definition example_runtime : Runtime := {|
  formatTime := λ _ fmt,
    match fmt with
    | None => "2025-06-01 12:00:00,000"
    | Some f => f
    end;
  formatTime_raises := λ _ _, false;
  sys_maxsize := 2 ^ 63 - 1;
  can_allocate := λ n, n <=? 1000000;
  traceback_format_exc := λ e,
    match e with
    | Some e => "Traceback (most recent call last): " +:+ exc_str e +:+ PyStr.NL
    | None => "NoneType: None" +:+ PyStr.NL
    end;
  os_path_dirname := λ _, "logs";
  openable := λ p, PyStr.startswith "logs/" p;
  time_time := λ n, Z.of_nat n * 1000;
  format_seconds := λ _, "0.0010";
  repr := λ s, "'" +:+ s +:+ "'"
|}.

(** ** Concrete inputs for the examples *)

Definition ZeroDivisionError : PyExc := mkPyExc 1 true "division by zero".

(** An exception whose class derives from [BaseException] only. *)
Definition KeyboardInterrupt : PyExc := mkPyExc 2 false "".

(** [divide(x, y) = x / y] *)
Definition divide : Callable (Z * Z) unit Z :=
  mkCallable "divide"
    (fun '(x, y) s => if y =? 0 then (Raised ZeroDivisionError, s)
                      else (Returned (x / y), s)).

(** A callable that is interrupted from the keyboard while it runs. *)
Definition interrupted : Callable (Z * Z) unit Z :=
  mkCallable "interrupted" (fun _ s => (Raised KeyboardInterrupt, s)).

(** The same two as methods: the receiving object comes first. *)
Definition divide_method : Callable (PyObject * (Z * Z)) unit Z :=
  mkCallable "divide" (fun a s => body divide (snd a) s).

Definition interrupted_method : Callable (PyObject * (Z * Z)) unit Z :=
  mkCallable "interrupted" (fun a s => body interrupted (snd a) s).

(** An object with no attributes, and one whose [logger] attribute holds
    the logger named ["app"]. *)
Definition bare_object : PyObject := mkPyObject ∅.
Definition object_with_logger : PyObject := mkPyObject {[ "logger" := Some "app" ]}.

(** A world in which nothing has been logged yet. *)
Definition world0 : World unit := mkWorld [] 0 tt.

(** Nothing written yet. *)
Definition no_output : Output := mkOutput [] ∅.

(** [logger.info("hello")] called from [app.main]. *)
Definition example_info : LogCall :=
  mkLogCall INFO "hello" "app" "main" 0 None None true.

(** A WARNING record from [mod.func_very_long]. *)
Definition example_warning_record : LogRecord :=
  mkLogRecord logging.WARNING "mod" "func_very_long" "hello" 0 None true.

(** [AdvancedLogger("app")] *)
Definition example_console_logger : AdvancedLogger.t :=
  AdvancedLogger.mk "app" None None 20 "" true None true false logging.DEBUG
    [Handler.new_console 0 logging.DEBUG
       (ConsoleF (ConsoleFormatter.mk "" 20 true None true false))]
    1.

(** [AdvancedLogger("app", log_file="logs/a.log")] *)
Definition example_file_logger : AdvancedLogger.t :=
  AdvancedLogger.mk "app" (Some "logs/a.log") (Some "logs") 20 "" true None true false
    logging.DEBUG
    [Handler.new_console 0 logging.DEBUG
       (ConsoleF (ConsoleFormatter.mk "" 20 true None true false));
     Handler.new_file 1 "logs/a.log" "a" logging.DEBUG
       (FileF (FileFormatter.mk 20 "" true None))]
    2.

(** The console rendering as the specification words it: a whole-line
    wrap with a bare level token when [colored_log] holds and the level is
    not INFO, and otherwise always a coloured level token in an unwrapped
    line. *)
Definition spec_console_format `{Runtime} (self : ConsoleFormatter.t)
    (ambient : option PyExc) (record : LogRecord) : string :=
  let line lvl :=
    append_traceback ambient record
      (assemble (timestamp (ConsoleFormatter.time_format self) record)
         (module_function (ConsoleFormatter.put_func_name self)
            (ConsoleFormatter.max_width self) record)
         (custom_field (ConsoleFormatter.custom_str self)) lvl (message record)) in
  if ConsoleFormatter.colored_log self && negb (levelno record =? logging.INFO)
  then level_color record +:+ line (level_name record) +:+ COLORS_RESET
  else line (level_color record +:+ level_name record +:+ COLORS_RESET).

(** ** Further parts of the module *)

(** ["\033" in s] *)
Fixpoint has_escape (s : string) : bool :=
  match s with
  | EmptyString => false
  | String c s' => Ascii.eqb c (ascii_of_nat 27) || has_escape s'
  end.

(** [logging.NOTSET], the level of a logger or handler on which [setLevel]
    was never called. *)
Definition logging_NOTSET : Z := 0.

(** A logger of the standard library, as [logging.getLogger] hands it out. *)
Module PlainLogger.

Record t := mk {
  level : Z;
  handlers : list Handler.t
}.

(** [logger.setLevel(lvl)] *)
Definition setLevel (lvl : Z) (self : t) : t := mk lvl (handlers self).

(** [logging.Logger.addHandler]: append unless already present. *)
Definition addHandler (h : Handler.t) (self : t) : t :=
  if bool_decide (h ∈ handlers self) then self
  else mk (level self) (handlers self ++ [h])%list.

End PlainLogger.

(** The loggers [logging.getLogger] knows by name, and the identity the
    next handler object receives. *)
Record Registry := mkRegistry {
  loggers : gmap string PlainLogger.t;
  next_handler : nat
}.

(** [logging.getLogger(name)]: the logger registered under [name], a new
    one (level [NOTSET], no handlers) when there is none yet. *)
Definition getLogger (name : string) (reg : Registry) : PlainLogger.t :=
  match loggers reg !! name with
  | Some lg => lg
  | None => PlainLogger.mk logging_NOTSET []
  end.

(** [get_logger(name, log_file, put_func_name, max_width, custom_str,
    time_format, colored_level, colored_log)]: how the call ends and the
    registry it leaves.  The logger object is the one registered under
    [name]; every change to it is a change of the registry. *)
Definition get_logger `{Runtime} (name : string) (log_file : option string)
    (put_func_name : bool) (max_width : Z) (custom_str : string)
    (time_format : option string) (colored_level colored_log : bool)
    (reg : Registry) : Completion * Registry :=
  let logger := getLogger name reg in
  let logger := PlainLogger.setLevel logging.DEBUG logger in
  let console_handler :=
    Handler.new_console (next_handler reg) logging_NOTSET
      (ConsoleF (ConsoleFormatter.init put_func_name max_width custom_str
                   time_format colored_level colored_log)) in
  let next := S (next_handler reg) in
  let logger :=
    if negb (existsb (fun h => Handler.isinstance h StreamHandler)
               (PlainLogger.handlers logger))
    then PlainLogger.addHandler console_handler logger
    else logger in
  match log_file with
  | Some p =>
      if PyStr.truthy p then
        if openable p then
          let file_handler :=
            Handler.new_file next p "a" logging_NOTSET
              (FileF (FileFormatter.init put_func_name max_width custom_str time_format)) in
          let logger :=
            if negb (existsb (fun h => Handler.isinstance h FileHandler)
                       (PlainLogger.handlers logger))
            then PlainLogger.addHandler file_handler logger
            else logger in
          (Normal, mkRegistry (<[name := logger]> (loggers reg)) (S next))
        else (RaisedOSError, mkRegistry (<[name := logger]> (loggers reg)) next)
      else (Normal, mkRegistry (<[name := logger]> (loggers reg)) next)
  | None => (Normal, mkRegistry (<[name := logger]> (loggers reg)) next)
  end.

(** The arguments of one [get_logger] call. *)
Record GetLoggerCall := mkGetLoggerCall {
  gl_name : string;
  gl_log_file : option string;
  gl_put_func_name : bool;
  gl_max_width : Z;
  gl_custom_str : string;
  gl_time_format : option string;
  gl_colored_level : bool;
  gl_colored_log : bool
}.

(** The registry after one call, whether it returned or raised. *)
Definition get_logger_call `{Runtime} (c : GetLoggerCall) (reg : Registry) : Registry :=
  snd (get_logger (gl_name c) (gl_log_file c) (gl_put_func_name c) (gl_max_width c)
         (gl_custom_str c) (gl_time_format c) (gl_colored_level c) (gl_colored_log c) reg).

(** The registry after a sequence of calls. *)
Definition get_logger_calls `{Runtime} (cs : list GetLoggerCall) (reg : Registry) : Registry :=
  fold_left (fun reg c => get_logger_call c reg) cs reg.

(** No logger has been asked for yet. *)
Definition empty_registry : Registry := mkRegistry ∅ 0.

(** The [IndexError] of [args[0]] on an empty argument tuple, and the
    [AttributeError] of a method call on [None]; [ident] is the identity
    of the new exception object. *)
Definition IndexError_tuple (ident : nat) : PyExc :=
  mkPyExc ident true "tuple index out of range".

Definition AttributeError_None (ident : nat) (attr : string) : PyExc :=
  mkPyExc ident true ("'NoneType' object has no attribute '" +:+ attr +:+ "'").

(** [logger.<attr>(...)] where [logger] is the result of
    [getattr(self, loggerVarName, None)]: the call [k] on a logger, an
    [AttributeError] on [None]. *)
Definition call_logger {St} (logger : option LoggerRef) (ident : nat) (attr : string)
    (k : LoggerRef -> Py St unit) : Py St unit :=
  match logger with
  | Some l => k l
  | None => raise (AttributeError_None ident attr)
  end.

(** [log_method_call(default, skip, verbose, loggerVarName)(func)]: the
    wrapper it returns, applied to its arguments.  [receiver] is the first
    positional argument, [None] when the wrapper is called without one;
    [rest] stands for the other arguments; [func] receives them all.
    [fresh] and [S fresh] are the identities of the exception objects the
    interpreter may create during the call. *)
Definition log_method_call `{Runtime} {A St V} (default : V) (skip verbose : bool)
    (loggerVarName : string) (fresh : nat)
    (func : Callable (option PyObject * A) St V)
    (receiver : option PyObject) (rest : A) : Py St V :=
  match receiver with
  | None => raise (IndexError_tuple fresh)
  | Some self =>
      let logger := getattr self loggerVarName in
      try_except_Exception
        (when verbose
           (call_logger logger fresh "info"
              (fun l => logger_info l ("Calling " +:+ __name__ func +:+ " ...")));;
         t1 ← time_now;
         result ← invoke func (receiver, rest);
         t2 ← time_now;
         when verbose
           (call_logger logger fresh "info"
              (fun l => logger_info l
                 ("Finished " +:+ __name__ func +:+ " in " +:+ format_seconds (t2 - t1)
                  +:+ " seconds.")));;
         mret result)
        (λ e,
           call_logger logger (S fresh) "error"
             (fun l => logger_error l
                ("Error in " +:+ __name__ func +:+ ": " +:+ exc_str e) e);;
           if skip then
             call_logger logger (S fresh) "warning"
               (fun l => logger_warning l
                  ("Skipping " +:+ __name__ func +:+ " due to error."));;
             mret default
           else raise e)
  end.

(** [test_my_logger(logger)] on an [AdvancedLogger]: one message per
    level.  The records name [module_] and [test_my_logger] as the caller
    and are created at the times [created]. *)
Definition test_my_logger `{Runtime} (logger : AdvancedLogger.t) (module_name : string)
    (created : Severity -> Z) (out : Output) : Output :=
  let call sev msg :=
    mkLogCall sev msg module_name "test_my_logger" (created sev) None None true in
  let out := AdvancedLogger.log logger (call DEBUG "This is a debug message.") out in
  let out := AdvancedLogger.log logger (call INFO "This is an info message.") out in
  let out := AdvancedLogger.log logger (call WARNING "This is a warning message.") out in
  let out := AdvancedLogger.log logger (call ERROR "This is an error message.") out in
  let out := AdvancedLogger.log logger (call CRITICAL "This is a critical message.") out in
  out.

(** The reconfiguration calls other than [set_file]. *)
Definition is_setting_change (op : ConfigOp) : bool :=
  match op with
  | SetFile _ => false
  | _ => true
  end.

(** What identifies a handler as a sink: the object, where it writes and
    its level (everything but its formatter). *)
Definition sink_of (h : Handler.t) : nat * Stream * Z :=
  (Handler.ident h, Handler.stream h, Handler.level h).

(** A handler list made of one console handler, alone or followed by one
    file handler in append mode. *)
Definition console_then_optional_file (hs : list Handler.t) : Prop :=
  exists c, Handler.stream c = Stdout /\
    (hs = [c] \/ exists f p, hs = [c; f] /\ Handler.stream f = FileStream p "a").

(** Every registered logger is at level DEBUG with such a handler list. *)
Definition registry_ok (reg : Registry) : Prop :=
  forall name lg, loggers reg !! name = Some lg ->
    PlainLogger.level lg = logging.DEBUG /\
    console_then_optional_file (PlainLogger.handlers lg).

(** Whether the record carries a captured exception. *)
Definition carries_exception (record : LogRecord) : bool :=
  match exc_info record with
  | Some (Some _) => true
  | _ => false
  end.

(** The file rendering as the specification words it: the stack trace of
    the exception the record carries follows the line exactly when the
    level is ERROR or above and the record carries a captured exception. *)
Definition spec_file_format `{Runtime} (self : FileFormatter.t) (record : LogRecord) : string :=
  let line :=
    assemble (timestamp (FileFormatter.time_format self) record)
      (module_function (FileFormatter.put_func_name self) (FileFormatter.max_width self)
         record)
      (custom_field (FileFormatter.custom_str self)) (level_name record)
      (message record) in
  match exc_info record with
  | Some (Some e) =>
      if logging.ERROR <=? levelno record
      then line +:+ PyStr.NL +:+ traceback_format_exc (Some e)
      else line
  | _ => line
  end.

(** [logger.error("boom", exc_info=True)] called from [app.main] while no
    exception is being handled: the record holds the empty triple. *)
Definition example_error_record_without_exception : LogRecord :=
  mkLogRecord logging.ERROR "app" "main" "boom" 0 (Some None) true.

(** An ERROR record that carries [ZeroDivisionError]. *)
Definition example_error_record : LogRecord :=
  mkLogRecord logging.ERROR "app" "main" "boom" 0 (Some (Some ZeroDivisionError)) true.

(** [logger.info("again")] called from [app.main]. *)
Definition example_info_again : LogCall :=
  mkLogCall INFO "again" "app" "main" 0 None None true.

(** Closes a goal about concrete inputs by running the definitions. *)
Ltac by_evaluation := vm_compute; first [reflexivity | discriminate].

(** * Properties *)

(** ** Python string operations *)

Lemma length_spaces n : String.length (PyStr.spaces n) = n.
Proof. induction n as [|n IH]; simpl; [reflexivity | now rewrite IH]. Qed.

Lemma length_take n s : String.length (PyStr.take n s) = Nat.min n (String.length s).
Proof.
  revert s; induction n as [|n IH]; intros [|c s]; simpl; try reflexivity.
  now rewrite IH.
Qed.

Lemma append_cons c s t : String c s +:+ t = String c (s +:+ t).
Proof. reflexivity. Qed.

Lemma take_app_short n s t :
  (n <= String.length s)%nat -> PyStr.take n (s +:+ t) = PyStr.take n s.
Proof.
  revert s; induction n as [|n IH]; intros [|c s] Hn; simpl in *; try reflexivity; try lia.
  rewrite ?append_cons; simpl. f_equal. apply IH. lia.
Qed.

Lemma take_app_long s t k :
  PyStr.take (String.length s + k) (s +:+ t) = s +:+ PyStr.take k t.
Proof.
  induction s as [|c s IH]; [reflexivity|].
  rewrite ?append_cons; simpl. rewrite ?append_cons. now rewrite IH.
Qed.

Lemma take_all s : PyStr.take (String.length s) s = s.
Proof. induction s as [|c s IH]; simpl; [reflexivity | now rewrite IH]. Qed.

Lemma append_empty_r s : s +:+ "" = s.
Proof.
  induction s as [|c s IH]; [reflexivity|].
  now rewrite append_cons, IH.
Qed.

Lemma length_append s t :
  String.length (s +:+ t) = (String.length s + String.length t)%nat.
Proof.
  induction s as [|c s IH]; [reflexivity|].
  rewrite append_cons. simpl. now rewrite IH.
Qed.

Lemma ljust_short s w : w <= PyStr.len s -> PyStr.ljust s w = s.
Proof.
  intros Hw. unfold PyStr.ljust.
  replace (Z.to_nat (w - PyStr.len s)) with 0%nat by lia.
  apply append_empty_r.
Qed.

Lemma length_ljust s w :
  PyStr.len (PyStr.ljust s w) = Z.max w (PyStr.len s).
Proof.
  unfold PyStr.ljust, PyStr.len. rewrite length_append, length_spaces.
  unfold PyStr.len. lia.
Qed.

(** Padding to a non-negative width and slicing to the same width. *)
Lemma ljust_slice_padded s w :
  PyStr.len s <= w ->
  PyStr.slice_to (PyStr.ljust s w) w = s +:+ PyStr.spaces (Z.to_nat (w - PyStr.len s)).
Proof.
  intros Hw. unfold PyStr.slice_to.
  assert (0 <= w) as H0 by (unfold PyStr.len in Hw; lia).
  destruct (Z.leb_spec 0 w) as [_|]; [|lia].
  unfold PyStr.ljust.
  replace (Z.to_nat w)
    with (String.length s + Z.to_nat (w - PyStr.len s))%nat
    by (unfold PyStr.len in *; lia).
  rewrite take_app_long. f_equal.
  rewrite <- (length_spaces (Z.to_nat (w - PyStr.len s))) at 1.
  apply take_all.
Qed.

Lemma ljust_slice_truncated s w :
  0 <= w -> w <= PyStr.len s ->
  PyStr.slice_to (PyStr.ljust s w) w = PyStr.take (Z.to_nat w) s.
Proof.
  intros H0 Hw. rewrite ljust_short by assumption.
  unfold PyStr.slice_to. destruct (Z.leb_spec 0 w); [reflexivity | lia].
Qed.

Lemma length_ljust_slice s w :
  0 <= w -> PyStr.len (PyStr.slice_to (PyStr.ljust s w) w) = w.
Proof.
  intros H0. destruct (Z.le_gt_cases (PyStr.len s) w) as [Hle|Hgt].
  - rewrite ljust_slice_padded by assumption.
    unfold PyStr.len in *. rewrite length_append, length_spaces. lia.
  - rewrite ljust_slice_truncated by lia.
    unfold PyStr.len in *. rewrite length_take. lia.
Qed.

(** ** Level names *)

Lemma level_name_cases record :
  (levelno record = logging.DEBUG /\ level_name record = "DBG") \/
  (levelno record = logging.INFO /\ level_name record = "INF") \/
  (levelno record = logging.WARNING /\ level_name record = "WRN") \/
  (levelno record = logging.ERROR /\ level_name record = "ERR") \/
  (levelno record = logging.CRITICAL /\ level_name record = "CRT") \/
  (levelno record <> logging.DEBUG /\ levelno record <> logging.INFO /\
   levelno record <> logging.WARNING /\ levelno record <> logging.ERROR /\
   levelno record <> logging.CRITICAL /\ level_name record = "UNK").
Proof.
  unfold level_name, dict_get, LOG_LEVELS. simpl list_to_map.
  rewrite !lookup_insert, lookup_empty.
  repeat case_decide; simpl; intuition congruence.
Qed.

Lemma level_name_INF record :
  String.eqb (level_name record) "INF" = (levelno record =? logging.INFO).
Proof.
  destruct (level_name_cases record)
    as [[Hl ->]|[[Hl ->]|[[Hl ->]|[[Hl ->]|[[Hl ->]|(?&?&?&?&?& ->)]]]]];
    try rewrite Hl; try reflexivity.
  simpl. symmetry. apply Z.eqb_neq. assumption.
Qed.

(** ** The formatters *)

Section FormatterProperties.
Context `{Runtime}.

Lemma append_traceback_eq ambient record log_msg :
  append_traceback ambient record log_msg =
  log_msg +:+
    (if bool_decide (logging.ERROR <= levelno record /\ is_Some (exc_info record))
     then PyStr.NL +:+ traceback_format_exc ambient else "").
Proof.
  unfold append_traceback.
  destruct (Z.leb_spec logging.ERROR (levelno record)) as [Hle|Hlt].
  - destruct (exc_info record) as [e|] eqn:He.
    + rewrite bool_decide_eq_true_2; [reflexivity|]. split; [assumption | eauto].
    + rewrite bool_decide_eq_false_2; [reflexivity|].
      intros [_ [x Hx]]. discriminate.
  - rewrite bool_decide_eq_false_2; [now rewrite append_empty_r | lia].
Qed.

(** C7, as amended.  The console formatter colours in one of three ways.
    When [colored_log] is set and the level is not INFO, the level token
    is the bare short code and the whole line (traceback included) is
    wrapped in the level's colour and the reset code.  Otherwise, when
    [colored_level] is set, only the short code is wrapped in colour and
    reset and the line is left as it is.  Otherwise (no colouring asked
    for) the short code is bare and the line is left as it is. *)
Theorem console_coloring_three_ways
    (self : ConsoleFormatter.t) (ambient : option PyExc) (record : LogRecord) :
  let level := level_name record in
  let color := level_color record in
  let line lvl :=
    append_traceback ambient record
      (assemble (timestamp (ConsoleFormatter.time_format self) record)
         (module_function (ConsoleFormatter.put_func_name self)
            (ConsoleFormatter.max_width self) record)
         (custom_field (ConsoleFormatter.custom_str self)) lvl (message record)) in
  ConsoleFormatter.format self ambient record =
    if ConsoleFormatter.colored_log self && negb (levelno record =? logging.INFO)
    then color +:+ line level +:+ COLORS_RESET
    else if ConsoleFormatter.colored_level self
         then line (color +:+ level +:+ COLORS_RESET)
         else line level.
Proof.
  intros level color line.
  unfold ConsoleFormatter.format, ConsoleFormatter.level_str.
  rewrite level_name_INF.
  destruct (ConsoleFormatter.colored_log self),
           (ConsoleFormatter.colored_level self),
           (levelno record =? logging.INFO); reflexivity.
Qed.

(** C8.  With [put_func_name] set and a non-negative width [w], the
    caller field is ["|module.function"] padded with spaces to [w] and
    cut to its first [w] characters, so it is exactly [w] characters
    long (empty for [w = 0]); with [put_func_name] unset it is empty.
    For width 10 and caller ["mod.func_very_long"] it is the 10
    characters ["|mod.func_"], a cut of the source with no padding.
    Both formatters compute the field this way. *)
Theorem caller_field_padded_then_cut (w : Z) (record : LogRecord) :
  0 <= w ->
  let src := "|" +:+ module_ record +:+ "." +:+ funcName record in
  PyStr.len (module_function true w record) = w /\
  module_function true w record =
    PyStr.take (Z.to_nat w) (src +:+ PyStr.spaces (Z.to_nat (w - PyStr.len src))) /\
  (w = 0 -> module_function true w record = "") /\
  module_function false w record = "" /\
  (w = 10 -> module_ record = "mod" -> funcName record = "func_very_long" ->
   module_function true w record = "|mod.func_" /\
   module_function true w record = PyStr.take 10 src).
Proof.
  intros Hw src. unfold module_function. fold src.
  split; [now apply length_ljust_slice|].
  split.
  { unfold PyStr.slice_to, PyStr.ljust.
    destruct (Z.leb_spec 0 w); [reflexivity | lia]. }
  split.
  { intros ->. reflexivity. }
  split; [reflexivity|].
  intros -> Hm Hf. subst src. rewrite Hm, Hf. split; reflexivity.
Qed.

(** C9, as amended.  In both formatters a newline and the text of
    [traceback.format_exc()], the trace of the exception being handled
    while the record is rendered (whatever the record itself holds), are
    appended to the assembled line exactly when the level is ERROR or
    above and the record's exception information is set, which includes
    the empty information stored by [exc_info=True] outside an exception
    handler; in every other case (ERROR or above with no exception
    information, or any level below ERROR) nothing is appended.  The
    console formatter applies its whole-line colouring after that. *)
Theorem traceback_appended_iff_error_and_exc_info_set
    (cf : ConsoleFormatter.t) (ff : FileFormatter.t)
    (ambient : option PyExc) (record : LogRecord) :
  let extra :=
    if bool_decide (logging.ERROR <= levelno record /\ is_Some (exc_info record))
    then PyStr.NL +:+ traceback_format_exc ambient
    else "" in
  let file_line :=
    assemble (timestamp (FileFormatter.time_format ff) record)
      (module_function (FileFormatter.put_func_name ff) (FileFormatter.max_width ff) record)
      (custom_field (FileFormatter.custom_str ff)) (level_name record) (message record) in
  let console_line :=
    assemble (timestamp (ConsoleFormatter.time_format cf) record)
      (module_function (ConsoleFormatter.put_func_name cf)
         (ConsoleFormatter.max_width cf) record)
      (custom_field (ConsoleFormatter.custom_str cf))
      (ConsoleFormatter.level_str cf record) (message record) in
  FileFormatter.format ff ambient record = file_line +:+ extra /\
  ConsoleFormatter.format cf ambient record =
    if ConsoleFormatter.whole_line cf record
    then level_color record +:+ (console_line +:+ extra) +:+ COLORS_RESET
    else console_line +:+ extra.
Proof.
  intros extra file_line console_line. split.
  - unfold FileFormatter.format. apply append_traceback_eq.
  - unfold ConsoleFormatter.format, ConsoleFormatter.whole_line.
    rewrite append_traceback_eq. reflexivity.
Qed.

End FormatterProperties.

(** ** The handler list *)

Lemma isinstance_StreamHandler h : Handler.isinstance h StreamHandler = true.
Proof. unfold Handler.isinstance, Handler.class. now destruct (Handler.stream h). Qed.

Lemma isinstance_FileHandler_stream h :
  Handler.isinstance h FileHandler = true <->
  exists path mode, Handler.stream h = FileStream path mode.
Proof.
  unfold Handler.isinstance, Handler.class.
  destruct (Handler.stream h) as [|p m]; simpl; split.
  - discriminate.
  - intros (? & ? & ?); discriminate.
  - eauto.
  - reflexivity.
Qed.

Lemma not_file_handler_stdout h :
  Handler.isinstance h FileHandler = false <-> Handler.stream h = Stdout.
Proof.
  unfold Handler.isinstance, Handler.class.
  destruct (Handler.stream h); simpl; split; congruence.
Qed.

Lemma with_handlers_same self :
  AdvancedLogger.with_handlers (AdvancedLogger.handlers self)
    (AdvancedLogger.next_ident self) self = self.
Proof. now destruct self. Qed.

(** Removing a file handler that heads the file handlers of [l] removes
    exactly that head and touches no other handler. *)
Lemma py_list_remove_head_file (h : Handler.t) (l t : list Handler.t) :
  is_file_handler h = true ->
  List.filter is_file_handler l = h :: t ->
  h ∈ l /\
  List.filter is_file_handler (py_list_remove h l) = t /\
  List.filter not_file_handler (py_list_remove h l) = List.filter not_file_handler l.
Proof.
  intros Hh. induction l as [|y l IH]; simpl; [discriminate|].
  unfold not_file_handler at 2. fold (is_file_handler y).
  destruct (is_file_handler y) eqn:Hy; simpl.
  - intros [= ? ?]; subst. rewrite decide_True by reflexivity.
    split; [apply list_elem_of_here | split; reflexivity].
  - intros Hf. destruct (IH Hf) as (Hin & Ht & Hn).
    assert (h <> y) as Hne by (intros ->; congruence).
    rewrite decide_False by assumption. simpl.
    unfold not_file_handler at 1. fold (is_file_handler y). rewrite Hy. simpl.
    split; [now apply list_elem_of_further|]. split; [assumption | now f_equal].
Qed.

Lemma filter_file_nil (l : list Handler.t) :
  List.filter is_file_handler l = [] -> List.filter not_file_handler l = l.
Proof.
  induction l as [|y l IH]; simpl; [reflexivity|].
  unfold not_file_handler at 1. fold (is_file_handler y).
  destruct (is_file_handler y); simpl; [discriminate|].
  intros Hl. now rewrite IH.
Qed.

(** The removal loop of [set_file], run over a snapshot [s] whose file
    handlers are those of the current list, leaves the other handlers. *)
Lemma remove_loop_spec (s : list Handler.t) (self : AdvancedLogger.t) :
  List.filter is_file_handler (AdvancedLogger.handlers self) = List.filter is_file_handler s ->
  fold_left (fun self h =>
               if Handler.isinstance h FileHandler
               then AdvancedLogger.removeHandler h self else self) s self
  = AdvancedLogger.with_handlers
      (List.filter not_file_handler (AdvancedLogger.handlers self))
      (AdvancedLogger.next_ident self) self.
Proof.
  revert self. induction s as [|h s IH]; intros self Hf; simpl in *.
  - rewrite filter_file_nil by assumption. symmetry. apply with_handlers_same.
  - fold (is_file_handler h). destruct (is_file_handler h) eqn:Hh; simpl in Hf.
    + destruct (py_list_remove_head_file h _ _ Hh Hf) as (Hin & Ht & Hn).
      unfold AdvancedLogger.removeHandler.
      rewrite bool_decide_eq_true_2 by assumption.
      rewrite IH by (simpl; assumption). simpl. rewrite Hn.
      now destruct self.
    + now apply IH.
Qed.

Lemma remove_file_handlers_spec self :
  AdvancedLogger.remove_file_handlers self =
  AdvancedLogger.with_handlers
    (List.filter not_file_handler (AdvancedLogger.handlers self))
    (AdvancedLogger.next_ident self) self.
Proof. unfold AdvancedLogger.remove_file_handlers. now apply remove_loop_spec. Qed.

Lemma filter_file_of_not_file (l : list Handler.t) :
  List.filter is_file_handler (List.filter not_file_handler l) = [].
Proof.
  induction l as [|y l IH]; simpl; [reflexivity|].
  unfold not_file_handler at 1. fold (is_file_handler y).
  destruct (is_file_handler y) eqn:Hy; simpl; [assumption|].
  now rewrite Hy.
Qed.

Lemma filter_not_file_idem (l : list Handler.t) :
  List.filter not_file_handler (List.filter not_file_handler l) = List.filter not_file_handler l.
Proof.
  induction l as [|y l IH]; simpl; [reflexivity|].
  destruct (not_file_handler y) eqn:Hy; simpl; [|assumption].
  rewrite Hy. now f_equal.
Qed.

(** ** Reconfiguration *)

Section FacadeProperties.
Context `{Runtime}.

Lemma reset_formatters_spec self :
  AdvancedLogger.reset_formatters self =
  AdvancedLogger.with_handlers
    (map (Handler.setFormatter (AdvancedLogger.console_formatter self))
         (AdvancedLogger.handlers self))
    (AdvancedLogger.next_ident self) self.
Proof.
  unfold AdvancedLogger.reset_formatters. f_equal.
  apply map_ext. intros h. now rewrite isinstance_StreamHandler.
Qed.

Lemma filter_setFormatter (p : Handler.t -> bool) f (l : list Handler.t) :
  (forall h, p (Handler.setFormatter f h) = p h) ->
  List.filter p (map (Handler.setFormatter f) l) =
  map (Handler.setFormatter f) (List.filter p l).
Proof.
  intros Hp. induction l as [|y l IH]; simpl; [reflexivity|].
  rewrite Hp. destruct (p y); simpl; now rewrite IH.
Qed.

Lemma new_file_not_in_others id p mode lvl f (l : list Handler.t) :
  Handler.new_file id p mode lvl f ∉ List.filter not_file_handler l.
Proof.
  intros Hin. apply list_elem_of_In, filter_In in Hin as [_ Hn].
  discriminate.
Qed.

Lemma set_file_ok path self :
  openable path = true ->
  AdvancedLogger.set_file path self =
  (Normal,
   AdvancedLogger.mk (AdvancedLogger.name self) (Some path) (Some (os_path_dirname path))
     (AdvancedLogger.max_width self) (AdvancedLogger.custom_str self)
     (AdvancedLogger.put_func_name self) (AdvancedLogger.time_format self)
     (AdvancedLogger.colored_level self) (AdvancedLogger.colored_log self)
     (AdvancedLogger.level self)
     (List.filter not_file_handler (AdvancedLogger.handlers self) ++
      [Handler.new_file (AdvancedLogger.next_ident self) path "a" logging.DEBUG
         (AdvancedLogger.file_formatter self)])%list
     (S (AdvancedLogger.next_ident self))).
Proof.
  intros Hopen. unfold AdvancedLogger.set_file.
  rewrite remove_file_handlers_spec, Hopen. simpl.
  unfold AdvancedLogger.addHandler. simpl.
  rewrite bool_decide_eq_false_2 by apply new_file_not_in_others.
  reflexivity.
Qed.

Lemma set_file_failed path self :
  openable path = false ->
  AdvancedLogger.set_file path self =
  (RaisedOSError,
   AdvancedLogger.with_handlers
     (List.filter not_file_handler (AdvancedLogger.handlers self))
     (AdvancedLogger.next_ident self) self).
Proof.
  intros Hopen. unfold AdvancedLogger.set_file.
  now rewrite remove_file_handlers_spec, Hopen.
Qed.

Lemma init_value name log_file pf mw cs tf cl cg :
  AdvancedLogger.init name log_file pf mw cs tf cl cg =
  let console :=
    Handler.new_console 0 logging.DEBUG
      (ConsoleF (ConsoleFormatter.init pf mw cs tf cl cg)) in
  let made hs n :=
    AdvancedLogger.mk name log_file
      (match log_file with None => None | Some p => Some (os_path_dirname p) end)
      mw cs pf tf cl cg logging.DEBUG hs n in
  match log_file with
  | Some p =>
      if PyStr.truthy p then
        if openable p then
          Some (made [console;
                      Handler.new_file 1 p "a" logging.DEBUG
                        (FileF (FileFormatter.init pf mw cs tf))] 2%nat)
        else None
      else Some (made [console] 1%nat)
  | None => Some (made [console] 1%nat)
  end.
Proof.
  unfold AdvancedLogger.init.
  destruct log_file as [p|]; [|reflexivity].
  destruct (PyStr.truthy p); [|reflexivity].
  destruct (openable p); reflexivity.
Qed.

Lemma init_well_formed name log_file pf mw cs tf cl cg self :
  AdvancedLogger.init name log_file pf mw cs tf cl cg = Some self ->
  well_formed self.
Proof.
  rewrite init_value. simpl.
  destruct log_file as [p|]; [destruct (PyStr.truthy p); [destruct (openable p)|]|];
    intros [= <-]; unfold well_formed; simpl;
    (split; [reflexivity|]); (split; [eauto|]);
    repeat first [apply Forall_nil_2 | apply Forall_cons_2]; simpl;
    (split; [reflexivity | first [left; reflexivity | right; reflexivity]]).
Qed.

Lemma reset_formatters_well_formed self :
  AdvancedLogger.level self = logging.DEBUG ->
  (exists h, List.filter not_file_handler (AdvancedLogger.handlers self) = [h]) ->
  Forall (fun h => Handler.level h = logging.DEBUG) (AdvancedLogger.handlers self) ->
  well_formed (AdvancedLogger.reset_formatters self).
Proof.
  intros Hl [h Hh] Hall. rewrite reset_formatters_spec.
  unfold well_formed. simpl. split; [assumption|]. split.
  - rewrite filter_setFormatter by reflexivity. rewrite Hh. simpl.
    eexists; split; [reflexivity|]. destruct self; reflexivity.
  - apply Forall_map. eapply Forall_impl; [exact Hall|].
    intros y Hy. simpl. split; [assumption|]. left. destruct self; reflexivity.
Qed.

Lemma well_formed_levels self :
  well_formed self ->
  AdvancedLogger.level self = logging.DEBUG /\
  (exists h, List.filter not_file_handler (AdvancedLogger.handlers self) = [h]) /\
  Forall (fun h => Handler.level h = logging.DEBUG) (AdvancedLogger.handlers self).
Proof.
  intros (Hl & (h & Hh & _) & Hall). split; [assumption|]. split; [eauto|].
  eapply Forall_impl; [exact Hall|]. intros y Hy. apply Hy.
Qed.

Lemma Forall_filter_keep {A} (P : A -> Prop) (p : A -> bool) (l : list A) :
  Forall P l -> Forall P (List.filter p l).
Proof.
  induction 1 as [|y l Hy Hl IH]; simpl; [constructor|].
  destruct (p y); [constructor|]; assumption.
Qed.

Lemma set_file_well_formed path self :
  well_formed self -> well_formed (snd (AdvancedLogger.set_file path self)).
Proof.
  intros (Hl & (h & Hh & Hf) & Hall).
  destruct (openable path) eqn:Hopen.
  - rewrite set_file_ok by assumption. destruct self. simpl in *.
    unfold well_formed. simpl. split; [assumption|]. split.
    + exists h. split; [|exact Hf].
      rewrite List.filter_app, filter_not_file_idem. simpl.
      now rewrite app_nil_r.
    + apply Forall_app. split.
      * apply Forall_filter_keep. exact Hall.
      * apply Forall_cons_2; [|apply Forall_nil_2]. simpl. auto.
  - rewrite set_file_failed by assumption. destruct self. simpl in *.
    unfold well_formed. simpl. split; [assumption|]. split.
    + exists h. split; [|exact Hf]. now rewrite filter_not_file_idem.
    + apply Forall_filter_keep. exact Hall.
Qed.

Lemma apply_op_well_formed op self :
  well_formed self -> well_formed (apply_op op self).
Proof.
  intros Hwf. destruct op; simpl.
  - now apply set_file_well_formed.
  - destruct (well_formed_levels _ Hwf) as (? & ? & ?).
    now apply reset_formatters_well_formed.
  - destruct (well_formed_levels _ Hwf) as (? & ? & ?).
    now apply reset_formatters_well_formed.
  - destruct (well_formed_levels _ Hwf) as (? & ? & ?).
    now apply reset_formatters_well_formed.
  - destruct (well_formed_levels _ Hwf) as (? & ? & ?).
    now apply reset_formatters_well_formed.
  - destruct (well_formed_levels _ Hwf) as (? & ? & ?).
    now apply reset_formatters_well_formed.
  - destruct (well_formed_levels _ Hwf) as (? & ? & ?).
    now apply reset_formatters_well_formed.
Qed.

Lemma apply_ops_well_formed ops self :
  well_formed self -> well_formed (apply_ops ops self).
Proof.
  revert self. induction ops as [|op ops IH]; intros self Hwf; simpl; [assumption|].
  apply IH. now apply apply_op_well_formed.
Qed.

Lemma ConsoleFormatter_init_flags pf mw cs tf cl cg :
  ConsoleFormatter.init pf mw cs tf cl cg =
  ConsoleFormatter.mk cs mw pf tf (cl || cg) cg.
Proof. destruct cl, cg; reflexivity. Qed.

(** C1, as amended.  After construction and any sequence of
    reconfiguration calls, a call [set_coloring(colored_level=cl,
    colored_log=cg)] leaves the console sink with the effective flags
    [colored_level = cl or cg] and [colored_log = cg]: asking for
    whole-line colouring always turns level colouring on, also when
    level colouring is switched off in the same call, and whole-line
    colouring is off exactly when it was not asked for.  At every point
    of such a sequence each console formatter installed on a handler
    has level colouring on whenever it has whole-line colouring on, and
    the constructor of the formatter normalises in the same way. *)
Theorem coloring_coupling_whole_line_wins
    name log_file pf mw cs tf cl0 cg0 (ops : list ConfigOp) (cl cg : bool)
    (self0 : AdvancedLogger.t) :
  AdvancedLogger.init name log_file pf mw cs tf cl0 cg0 = Some self0 ->
  let before := apply_ops ops self0 in
  let self := AdvancedLogger.set_coloring cl cg before in
  map Handler.formatter (List.filter not_file_handler (AdvancedLogger.handlers self)) =
    [ConsoleF (ConsoleFormatter.mk (AdvancedLogger.custom_str before)
                 (AdvancedLogger.max_width before) (AdvancedLogger.put_func_name before)
                 (AdvancedLogger.time_format before) (cl || cg) cg)] /\
  (forall h f, h ∈ AdvancedLogger.handlers before ->
     Handler.formatter h = ConsoleF f ->
     ConsoleFormatter.colored_log f = true -> ConsoleFormatter.colored_level f = true) /\
  (forall pf' mw' cs' tf' cl' cg',
     ConsoleFormatter.colored_level (ConsoleFormatter.init pf' mw' cs' tf' cl' cg')
       = cl' || cg' /\
     ConsoleFormatter.colored_log (ConsoleFormatter.init pf' mw' cs' tf' cl' cg') = cg').
Proof.
  intros Hinit before self.
  assert (well_formed before) as Hwf
    by (apply apply_ops_well_formed; eapply init_well_formed; eassumption).
  split; [|split].
  - destruct Hwf as (_ & (h & Hh & _) & _).
    subst self. unfold AdvancedLogger.set_coloring.
    rewrite reset_formatters_spec. simpl.
    rewrite filter_setFormatter by reflexivity. rewrite Hh. simpl.
    unfold AdvancedLogger.console_formatter. simpl.
    rewrite ConsoleFormatter_init_flags. now destruct before.
  - intros h f Hin Hf Hlog.
    destruct Hwf as (_ & _ & Hall).
    rewrite Forall_forall in Hall. destruct (Hall h Hin) as [_ [Hc|Hc]];
      rewrite Hc in Hf; [|discriminate].
    injection Hf as <-. rewrite ConsoleFormatter_init_flags in *. simpl in *.
    rewrite Hlog. apply orb_true_r.
  - intros. rewrite ConsoleFormatter_init_flags. split; reflexivity.
Qed.

(** *** What logging calls write *)

Lemma file_content_insert_eq out path l :
  file_content (mkOutput (stdout out) (<[path := l]> (files out))) path = l.
Proof. unfold file_content. simpl. now rewrite lookup_insert_eq. Qed.

Lemma file_content_insert_ne out path q l :
  q <> path ->
  file_content (mkOutput (stdout out) (<[path := l]> (files out))) q = file_content out q.
Proof. intros Hq. unfold file_content. simpl. now rewrite lookup_insert_ne. Qed.

Lemma handle_stdout_files h ambient record out :
  Handler.stream h = Stdout ->
  files (Handler.handle h ambient record out) = files out.
Proof.
  intros Hs. unfold Handler.handle, Handler.emit. rewrite Hs.
  destruct (Handler.level h <=? levelno record); [|reflexivity].
  now destruct (Handler.format_raises h record).
Qed.

Lemma console_handlers_keep_files (hs : list Handler.t) ambient record out :
  Forall (fun h => Handler.stream h = Stdout) hs ->
  files (fold_left (fun out h => Handler.handle h ambient record out) hs out) = files out.
Proof.
  intros Hall. revert out. induction Hall as [|h hs Hh Hhs IH]; intros out; simpl.
  - reflexivity.
  - rewrite IH. now apply handle_stdout_files.
Qed.

Lemma not_file_handlers_stdout (l : list Handler.t) :
  Forall (fun h => Handler.stream h = Stdout) (List.filter not_file_handler l).
Proof.
  apply Forall_forall. intros h Hin.
  apply list_elem_of_In, filter_In in Hin as [_ Hn].
  apply not_file_handler_stdout. unfold not_file_handler in Hn.
  now apply negb_true_iff.
Qed.

Lemma severity_at_least_DEBUG s : logging.DEBUG <= severity_levelno s.
Proof. destruct s; unfold logging.DEBUG; simpl; unfold logging.INFO, logging.WARNING,
  logging.ERROR, logging.CRITICAL, logging.DEBUG; lia. Qed.

(** One logging call on a logger whose handlers are console handlers
    followed by one file handler at level DEBUG. *)
Lemma log_one_file_sink self (others : list Handler.t) id path mode f c out :
  AdvancedLogger.level self = logging.DEBUG ->
  AdvancedLogger.handlers self =
    (List.filter not_file_handler others ++
     [Handler.new_file id path mode logging.DEBUG f])%list ->
  let fh := Handler.new_file id path mode logging.DEBUG f in
  file_content (AdvancedLogger.log self c out) path =
    (file_content out path ++
     (if Handler.format_raises fh (AdvancedLogger.makeRecord c) then []
      else [Handler.format fh (lc_ambient c) (AdvancedLogger.makeRecord c)
            +:+ PyStr.NL]))%list /\
  (forall q, q <> path ->
     file_content (AdvancedLogger.log self c out) q = file_content out q).
Proof.
  intros Hl Hhs fh. unfold AdvancedLogger.log. rewrite Hl.
  pose proof (severity_at_least_DEBUG (lc_severity c)) as Hsev.
  destruct (Z.leb_spec logging.DEBUG (severity_levelno (lc_severity c))); [|lia].
  unfold AdvancedLogger.callHandlers. rewrite Hhs, fold_left_app. simpl.
  set (out1 := fold_left _ _ out).
  assert (files out1 = files out) as Hfiles
    by apply console_handlers_keep_files, not_file_handlers_stdout.
  unfold Handler.handle. simpl.
  destruct (Z.leb_spec logging.DEBUG (severity_levelno (lc_severity c))); [|lia].
  unfold Handler.emit. fold fh.
  destruct (Handler.format_raises fh (AdvancedLogger.makeRecord c)); simpl.
  - split.
    + rewrite app_nil_r. unfold file_content. now rewrite Hfiles.
    + intros q _. unfold file_content. now rewrite Hfiles.
  - split.
    + rewrite file_content_insert_eq. unfold file_content. now rewrite Hfiles.
    + intros q Hq. rewrite file_content_insert_ne by assumption.
      unfold file_content. now rewrite Hfiles.
Qed.

Lemma log_all_one_file_sink self (others : list Handler.t) id path mode f cs out :
  AdvancedLogger.level self = logging.DEBUG ->
  AdvancedLogger.handlers self =
    (List.filter not_file_handler others ++
     [Handler.new_file id path mode logging.DEBUG f])%list ->
  let fh := Handler.new_file id path mode logging.DEBUG f in
  file_content (AdvancedLogger.log_all self cs out) path =
    (file_content out path ++
     map (fun c => Handler.format fh (lc_ambient c) (AdvancedLogger.makeRecord c)
                   +:+ PyStr.NL)
         (List.filter
            (fun c => negb (Handler.format_raises fh (AdvancedLogger.makeRecord c))) cs))%list /\
  (forall q, q <> path ->
     file_content (AdvancedLogger.log_all self cs out) q = file_content out q).
Proof.
  intros Hl Hhs fh. revert out. induction cs as [|c cs IH]; intros out.
  - simpl. split; [now rewrite app_nil_r | reflexivity].
  - change (AdvancedLogger.log_all self (c :: cs) out)
      with (AdvancedLogger.log_all self cs (AdvancedLogger.log self c out)).
    destruct (IH (AdvancedLogger.log self c out)) as [IHp IHq].
    destruct (log_one_file_sink self others id path mode f c out Hl Hhs) as [Hp Hq].
    fold fh in Hp. split.
    + rewrite IHp, Hp. simpl.
      destruct (Handler.format_raises fh (AdvancedLogger.makeRecord c)); simpl;
        now rewrite <- app_assoc.
    + intros q Hne. rewrite IHq by assumption. now apply Hq.
Qed.

(** C5, as amended.  On a logger built by [__init__] and reconfigured in
    any way, a call of [set_file(path)] that returns normally first
    removes every file handler and then attaches one new file handler, so
    exactly one file sink is left: the one for [path], opened in append
    mode and carrying a file formatter for the current settings.  The
    other handlers are kept and the stored path becomes [path].  From then
    on each logging call whose record can be rendered adds one line to
    [path], after whatever the file held before (earlier content is kept,
    not replaced), and no other file (in particular the previous log
    file) receives anything. *)
Theorem set_file_leaves_one_file_sink
    name log_file pf mw cs tf cl cg (ops : list ConfigOp)
    (self0 : AdvancedLogger.t) (path : string) :
  AdvancedLogger.init name log_file pf mw cs tf cl cg = Some self0 ->
  openable path = true ->
  let before := apply_ops ops self0 in
  let after := snd (AdvancedLogger.set_file path before) in
  let fh :=
    Handler.new_file (AdvancedLogger.next_ident before) path "a" logging.DEBUG
      (FileF (FileFormatter.init (AdvancedLogger.put_func_name before)
                (AdvancedLogger.max_width before) (AdvancedLogger.custom_str before)
                (AdvancedLogger.time_format before))) in
  fst (AdvancedLogger.set_file path before) = Normal /\
  List.filter is_file_handler
    (AdvancedLogger.handlers (AdvancedLogger.remove_file_handlers before)) = [] /\
  List.filter is_file_handler (AdvancedLogger.handlers after) = [fh] /\
  List.filter not_file_handler (AdvancedLogger.handlers after) =
    List.filter not_file_handler (AdvancedLogger.handlers before) /\
  AdvancedLogger.log_file after = Some path /\
  forall (calls : list LogCall) (out : Output),
    file_content (AdvancedLogger.log_all after calls out) path =
      (file_content out path ++
       map (fun c => Handler.format fh (lc_ambient c) (AdvancedLogger.makeRecord c)
                     +:+ PyStr.NL)
           (List.filter
              (fun c => negb (Handler.format_raises fh (AdvancedLogger.makeRecord c)))
              calls))%list /\
    (forall q, q <> path ->
       file_content (AdvancedLogger.log_all after calls out) q = file_content out q).
Proof.
  intros Hinit Hopen before after fh.
  assert (well_formed before) as Hwf
    by (apply apply_ops_well_formed; eapply init_well_formed; eassumption).
  destruct Hwf as (Hl & _ & _).
  subst after. rewrite set_file_ok by assumption. simpl.
  split; [reflexivity|]. split.
  { rewrite remove_file_handlers_spec. simpl. apply filter_file_of_not_file. }
  split.
  { rewrite List.filter_app, filter_file_of_not_file. reflexivity. }
  split.
  { rewrite List.filter_app, filter_not_file_idem. simpl. apply app_nil_r. }
  split; [reflexivity|].
  intros calls out.
  apply (log_all_one_file_sink _ (AdvancedLogger.handlers before)); [exact Hl | reflexivity].
Qed.

(** What [reset_defaults] does to the settings and to the handlers. *)
Lemma reset_defaults_settings self :
  let r := AdvancedLogger.reset_defaults self in
  AdvancedLogger.put_func_name r = true /\
  AdvancedLogger.max_width r = MAX_FIELD_WIDTH /\
  AdvancedLogger.custom_str r = "" /\
  AdvancedLogger.time_format r = None /\
  AdvancedLogger.colored_level r = true /\
  AdvancedLogger.colored_log r = false /\
  AdvancedLogger.log_file r = AdvancedLogger.log_file self /\
  map Handler.stream (AdvancedLogger.handlers r) =
    map Handler.stream (AdvancedLogger.handlers self) /\
  Forall (fun h => Handler.formatter h =
                   ConsoleF (ConsoleFormatter.mk "" MAX_FIELD_WIDTH true None true false))
         (AdvancedLogger.handlers r).
Proof.
  intros r. subst r. unfold AdvancedLogger.reset_defaults.
  rewrite reset_formatters_spec. simpl. repeat (split; [reflexivity|]). split.
  - rewrite map_map. reflexivity.
  - apply Forall_map. apply Forall_forall. intros h _. reflexivity.
Qed.

End FacadeProperties.

(** ** The decorators *)

Section WrapperProperties.
Context `{Runtime}.

(** The module-level wrapper, run on a world. *)
Lemma log_funcall_run {A St V : Type} (logger : LoggerRef) (default : V) (skip verbose : bool)
    (func : Callable A St V) (args : A) (w : World St) :
  log_funcall logger default skip verbose func args w =
  let calling :=
    if verbose
    then [mkEntry logger logging.INFO ("Calling " +:+ __name__ func +:+ " ...") None]
    else [] in
  match body func args (cstate w) with
  | (Returned v, s') =>
      (Returned v,
       mkWorld
         (journal w ++ calling ++
          (if verbose
           then [mkEntry logger logging.INFO
                   ("Finished " +:+ __name__ func +:+ " in " +:+
                    format_seconds (time_time (S (clock w)) - time_time (clock w))
                    +:+ " seconds.") None]
           else []))%list
         (S (S (clock w))) s')
  | (Raised e, s') =>
      if exc_is_Exception e then
        (if skip then Returned default else Raised e,
         mkWorld
           (journal w ++ calling ++
            [mkEntry logger logging.ERROR
               ("Error in " +:+ __name__ func +:+ ": " +:+ exc_str e) (Some e)] ++
            (if skip
             then [mkEntry logger logging.WARNING
                     ("Skipping " +:+ __name__ func +:+ " due to error.") None]
             else []))%list
           (S (clock w)) s')
      else (Raised e, mkWorld (journal w ++ calling)%list (S (clock w)) s')
  end.
Proof.
  unfold log_funcall, try_except_Exception, when, invoke, time_now,
    logger_info, logger_warning, logger_error, logger_log, raise,
    mbind, Py_bind, mret, Py_ret.
  destruct verbose; simpl;
    destruct (body func args (cstate w)) as [[v|e] s']; simpl;
    try destruct (exc_is_Exception e); try destruct skip; simpl;
    rewrite <- ?app_assoc, ?app_nil_r; reflexivity.
Qed.

(** The wrapper made by the method of [AdvancedLogger], run on a world. *)
Lemma AdvancedLogger_log_funcall_run {A St V : Type} (self : AdvancedLogger.t) (default : V)
    (skip verbose : bool) (func : Callable A St V) (args : A) (w : World St) :
  AdvancedLogger.log_funcall self default skip verbose func args w =
  let logger := AdvancedLogger.name self in
  let calling :=
    if verbose
    then [mkEntry logger logging.INFO
            ("Calling " +:+ repr (__name__ func) +:+ " ...") None]
    else [] in
  match body func args (cstate w) with
  | (Returned v, s') =>
      (Returned v,
       mkWorld
         (journal w ++ calling ++
          (if verbose
           then [mkEntry logger logging.INFO
                   ("Finished " +:+ repr (__name__ func) +:+ " in " +:+
                    format_seconds (time_time (S (clock w)) - time_time (clock w))
                    +:+ " seconds.") None]
           else []))%list
         (S (S (clock w))) s')
  | (Raised e, s') =>
      if exc_is_Exception e then
        (if skip then Returned default else Raised e,
         mkWorld
           (journal w ++ calling ++
            [mkEntry logger logging.ERROR
               ("Error in " +:+ repr (__name__ func) +:+ ": " +:+ exc_str e) (Some e)] ++
            (if skip
             then [mkEntry logger logging.WARNING
                     ("Skipping " +:+ repr (__name__ func) +:+ " due to error.") None]
             else []))%list
           (S (clock w)) s')
      else (Raised e, mkWorld (journal w ++ calling)%list (S (clock w)) s')
  end.
Proof.
  unfold AdvancedLogger.log_funcall, try_except_Exception, when, invoke, time_now,
    logger_info, logger_warning, logger_error, logger_log, raise,
    mbind, Py_bind, mret, Py_ret.
  destruct verbose; simpl;
    destruct (body func args (cstate w)) as [[v|e] s']; simpl;
    try destruct (exc_is_Exception e); try destruct skip; simpl;
    rewrite <- ?app_assoc, ?app_nil_r; reflexivity.
Qed.

(** The wrapper made by [MethodLogger], run on a world. *)
Lemma MethodLogger_call_run {A St V : Type} (self : MethodLogger.t V)
    (func : Callable (PyObject * A) St V) (obj : PyObject) (args : A) (w : World St) :
  MethodLogger.call self func obj args w =
  let say lvl msg exc :=
    match MethodLogger.resolve self obj with
    | Some l => [mkEntry l lvl msg exc]
    | None => []
    end in
  let calling :=
    if MethodLogger.verbose self
    then say logging.INFO ("Calling " +:+ __name__ func) None
    else [] in
  match body func (obj, args) (cstate w) with
  | (Returned v, s') =>
      (Returned v,
       mkWorld
         (journal w ++ calling ++
          (if MethodLogger.verbose self
           then say logging.INFO
                  ("Finished " +:+ __name__ func +:+ " in " +:+
                   format_seconds (time_time (S (clock w)) - time_time (clock w))
                   +:+ " seconds") None
           else []))%list
         (S (S (clock w))) s')
  | (Raised e, s') =>
      if exc_is_Exception e then
        (if MethodLogger.skip self then Returned (MethodLogger.default self) else Raised e,
         mkWorld
           (journal w ++ calling ++
            say logging.ERROR
              ("Error in " +:+ __name__ func +:+ ": " +:+ exc_str e) (Some e) ++
            (if MethodLogger.skip self
             then say logging.WARNING
                    ("Skipping " +:+ __name__ func +:+ " due to error.") None
             else []))%list
           (S (clock w)) s')
      else (Raised e, mkWorld (journal w ++ calling)%list (S (clock w)) s')
  end.
Proof.
  unfold MethodLogger.call, MethodLogger.info_if, try_except_Exception, invoke, time_now,
    logger_info, logger_warning, logger_error, logger_log, raise,
    mbind, Py_bind, mret, Py_ret.
  destruct (MethodLogger.resolve self obj) as [l|];
    destruct (MethodLogger.verbose self); simpl;
    destruct (body func (obj, args) (cstate w)) as [[v|e] s']; simpl;
    try destruct (exc_is_Exception e); try destruct (MethodLogger.skip self); simpl;
    rewrite <- ?app_assoc, ?app_nil_r; reflexivity.
Qed.

Lemma logged_intro {St X} (w : World St) (o : Outcome X) new n s kinds :
  map entry_kind new = kinds ->
  logged w (o, mkWorld (journal w ++ new)%list n s) kinds.
Proof. intros Hk. exists new. split; [reflexivity | exact Hk]. Qed.

(** C3, as amended.  With [skip=True], for the wrapper of the
    module-level [log_funcall] and for the one of
    [AdvancedLogger.log_funcall]: a call that returns normally returns
    the callable's result unchanged and logs nothing but the INFO
    messages of [verbose]; a call in which the callable raises an
    exception derived from [Exception] returns [default] and logs
    exactly one ERROR entry (carrying the exception) followed by exactly
    one WARNING entry; an exception that does not derive from
    [Exception] passes through, with neither entry. *)
Theorem suppressing_wrapper_outcomes {A St V : Type}
    (logger : LoggerRef) (self : AdvancedLogger.t) (default : V) (verbose : bool)
    (func : Callable A St V) (args : A) (w : World St) :
  let r1 := log_funcall logger default true verbose func args w in
  let r2 := AdvancedLogger.log_funcall self default true verbose func args w in
  let me := AdvancedLogger.name self in
  let calling l := if verbose then [(l, logging.INFO, None)] else [] in
  match body func args (cstate w) with
  | (Returned v, _) =>
      fst r1 = Returned v /\ fst r2 = Returned v /\
      logged w r1 (calling logger ++ calling logger) /\
      logged w r2 (calling me ++ calling me)
  | (Raised e, _) =>
      if exc_is_Exception e then
        fst r1 = Returned default /\ fst r2 = Returned default /\
        logged w r1 (calling logger ++
                     [(logger, logging.ERROR, Some e); (logger, logging.WARNING, None)]) /\
        logged w r2 (calling me ++
                     [(me, logging.ERROR, Some e); (me, logging.WARNING, None)])
      else
        fst r1 = Raised e /\ fst r2 = Raised e /\
        logged w r1 (calling logger) /\ logged w r2 (calling me)
  end.
Proof.
  intros r1 r2 me calling. subst r1 r2.
  rewrite log_funcall_run, AdvancedLogger_log_funcall_run. simpl.
  destruct (body func args (cstate w)) as [[v|e] s']; simpl.
  - repeat split; try reflexivity; apply logged_intro; subst calling;
      destruct verbose; reflexivity.
  - destruct (exc_is_Exception e); simpl;
      (repeat split; try reflexivity; apply logged_intro; subst calling;
       destruct verbose; reflexivity).
Qed.

(** C4, as amended.  With [skip=False], for both wrappers: when the
    callable raises an exception derived from [Exception], the wrapper
    logs one ERROR entry carrying that exception and then lets the same
    exception out; an exception that does not derive from [Exception]
    leaves the same way without the entry.  In every case, whatever the
    options, the callable has run exactly once when the wrapper is
    left: its state is the one a single call produces. *)
Theorem reraising_wrapper_outcomes {A St V : Type}
    (logger : LoggerRef) (self : AdvancedLogger.t) (default : V) (verbose : bool)
    (func : Callable A St V) (args : A) (w : World St) :
  let r1 := log_funcall logger default false verbose func args w in
  let r2 := AdvancedLogger.log_funcall self default false verbose func args w in
  let me := AdvancedLogger.name self in
  let calling l := if verbose then [(l, logging.INFO, None)] else [] in
  match fst (body func args (cstate w)) with
  | Returned v => fst r1 = Returned v /\ fst r2 = Returned v
  | Raised e =>
      fst r1 = Raised e /\ fst r2 = Raised e /\
      if exc_is_Exception e then
        logged w r1 (calling logger ++ [(logger, logging.ERROR, Some e)]) /\
        logged w r2 (calling me ++ [(me, logging.ERROR, Some e)])
      else
        logged w r1 (calling logger) /\ logged w r2 (calling me)
  end /\
  (forall skip,
     cstate (snd (log_funcall logger default skip verbose func args w))
       = snd (body func args (cstate w)) /\
     cstate (snd (AdvancedLogger.log_funcall self default skip verbose func args w))
       = snd (body func args (cstate w))).
Proof.
  intros r1 r2 me calling. subst r1 r2. split.
  - rewrite log_funcall_run, AdvancedLogger_log_funcall_run. simpl.
    destruct (body func args (cstate w)) as [[v|e] s']; simpl.
    + split; reflexivity.
    + destruct (exc_is_Exception e); simpl;
        (repeat split; try reflexivity; apply logged_intro; subst calling;
         destruct verbose; reflexivity).
  - intros skip.
    rewrite log_funcall_run, AdvancedLogger_log_funcall_run. simpl.
    destruct (body func args (cstate w)) as [[v|e] s']; simpl;
      [|destruct (exc_is_Exception e)]; split; reflexivity.
Qed.

(** With a logger [l] resolved, everything the wrapper logs goes to [l],
    and outcome, kinds of entries and effect on the callable's state are
    those of the function wrapper bound to [l]. *)
Lemma MethodLogger_call_logs_to {A St V : Type} (self : MethodLogger.t V)
    (func : Callable (PyObject * A) St V) (obj : PyObject) (args : A) (w : World St) l :
  MethodLogger.resolve self obj = Some l ->
  let r := MethodLogger.call self func obj args w in
  let r' := log_funcall l (MethodLogger.default self) (MethodLogger.skip self)
              (MethodLogger.verbose self) func (obj, args) w in
  (exists new, journal (snd r) = (journal w ++ new)%list /\
               Forall (fun en => e_logger en = l) new) /\
  fst r = fst r' /\
  map entry_kind (journal (snd r)) = map entry_kind (journal (snd r')) /\
  cstate (snd r) = cstate (snd r').
Proof.
  intros Hres r r'. subst r r'. rewrite MethodLogger_call_run, log_funcall_run.
  simpl. rewrite Hres.
  destruct (body func (obj, args) (cstate w)) as [[v|e] s']; simpl;
    [|destruct (exc_is_Exception e); simpl];
    (split; [eexists; (split; [reflexivity|]);
             destruct (MethodLogger.verbose self); try destruct (MethodLogger.skip self);
             simpl; repeat constructor|]);
    (split; [reflexivity|]); (split; [|reflexivity]);
    destruct (MethodLogger.verbose self); try destruct (MethodLogger.skip self);
    simpl; rewrite !map_app; reflexivity.
Qed.

(** With no logger resolved, the wrapper logs nothing and only decides
    between the default value and the exception. *)
Lemma MethodLogger_call_silent {A St V : Type} (self : MethodLogger.t V)
    (func : Callable (PyObject * A) St V) (obj : PyObject) (args : A) (w : World St) :
  MethodLogger.resolve self obj = None ->
  journal (snd (MethodLogger.call self func obj args w)) = journal w /\
  fst (MethodLogger.call self func obj args w) =
    match fst (body func (obj, args) (cstate w)) with
    | Returned v => Returned v
    | Raised e =>
        if exc_is_Exception e && MethodLogger.skip self
        then Returned (MethodLogger.default self)
        else Raised e
    end.
Proof.
  intros Hres. rewrite MethodLogger_call_run. simpl. rewrite Hres.
  destruct (body func (obj, args) (cstate w)) as [[v|e] s']; simpl.
  - destruct (MethodLogger.verbose self); simpl; rewrite ?app_nil_r; split; reflexivity.
  - destruct (exc_is_Exception e); simpl;
      destruct (MethodLogger.verbose self); destruct (MethodLogger.skip self);
      simpl; rewrite ?app_nil_r; split; reflexivity.
Qed.

(** C10, as amended.  The wrapper made by [MethodLogger] logs to the
    logger given at construction when there is one, and otherwise to the
    logger found under [loggerVarName] on the receiving object; with a
    logger found, the outcome and the kinds of entries are those of the
    function wrapper bound to that logger.  When there is neither, it logs nothing; a normal result is returned
    unchanged, an exception derived from [Exception] is turned into
    [default] when [skip] is set and is let out otherwise, and an
    exception that does not derive from [Exception] is always let
    out. *)
Theorem method_logger_resolution_and_fallback {A St V : Type}
    (self : MethodLogger.t V) (func : Callable (PyObject * A) St V)
    (obj : PyObject) (args : A) (w : World St) :
  let r := MethodLogger.call self func obj args w in
  let like l :=
    let r' := log_funcall l (MethodLogger.default self) (MethodLogger.skip self)
                (MethodLogger.verbose self) func (obj, args) w in
    (exists new, journal (snd r) = (journal w ++ new)%list /\
                 Forall (fun en => e_logger en = l) new) /\
    fst r = fst r' /\
    map entry_kind (journal (snd r)) = map entry_kind (journal (snd r')) /\
    cstate (snd r) = cstate (snd r') in
  (forall l, MethodLogger._logger self = Some l -> like l) /\
  (forall l, MethodLogger._logger self = None ->
     attrs obj !! MethodLogger.loggerVarName self = Some (Some l) -> like l) /\
  (MethodLogger._logger self = None ->
   getattr obj (MethodLogger.loggerVarName self) = None ->
   journal (snd r) = journal w /\
   fst r =
     match fst (body func (obj, args) (cstate w)) with
     | Returned v => Returned v
     | Raised e =>
         if exc_is_Exception e && MethodLogger.skip self
         then Returned (MethodLogger.default self)
         else Raised e
     end).
Proof.
  intros r like. subst r like. split; [|split].
  - intros l Hl. apply MethodLogger_call_logs_to.
    unfold MethodLogger.resolve. now rewrite Hl.
  - intros l Hl Hattr. apply MethodLogger_call_logs_to.
    unfold MethodLogger.resolve, getattr. now rewrite Hl, Hattr.
  - intros Hl Hattr. apply MethodLogger_call_silent.
    unfold MethodLogger.resolve. now rewrite Hl.
Qed.

End WrapperProperties.

(** ** The file sink after a reconfiguration *)

Lemma reset_formatters_installs_console_formatters (self : AdvancedLogger.t) :
  Forall (fun h => Handler.formatter h = AdvancedLogger.console_formatter self)
         (AdvancedLogger.handlers (AdvancedLogger.reset_formatters self)).
Proof.
  unfold AdvancedLogger.reset_formatters. simpl.
  apply Forall_map, Forall_forall. intros h _. simpl.
  now rewrite isinstance_StreamHandler.
Qed.

(** C2 (the code departs from it).  [reset_formatters] tests
    [isinstance(h, logging.StreamHandler)] first, and a file handler is a
    stream handler, so every handler, the file handler included, receives
    a console formatter.  On [AdvancedLogger("app", log_file="logs/a.log")]
    after [set_custom_str("X")], the file handler carries a console
    formatter and the line written to the file for [info("hello")] holds
    the colour codes of the level token; before the reconfiguration the
    line was plain. *)
Theorem file_sink_gets_console_formatter_on_reconfiguration :
  (forall self h,
     h ∈ AdvancedLogger.handlers (AdvancedLogger.reset_formatters self) ->
     Handler.formatter h = AdvancedLogger.console_formatter self) /\
  map Handler.formatter
    (List.filter is_file_handler
       (AdvancedLogger.handlers (AdvancedLogger.set_custom_str "X" example_file_logger)))
    = [ConsoleF (ConsoleFormatter.mk "X" 20 true None true false)] /\
  file_content
    (@AdvancedLogger.log example_runtime
       (AdvancedLogger.set_custom_str "X" example_file_logger) example_info no_output)
    "logs/a.log"
    = ["[2025-06-01 12:00:00,000|app.main           |X|" +:+ PyStr.ESC +:+ "[92mINF"
       +:+ PyStr.ESC +:+ "[0m] hello" +:+ PyStr.NL] /\
  file_content
    (@AdvancedLogger.log example_runtime example_file_logger example_info no_output)
    "logs/a.log"
    = ["[2025-06-01 12:00:00,000|app.main           |INF] hello" +:+ PyStr.NL].
Proof.
  split.
  - intros self h Hin.
    pose proof (reset_formatters_installs_console_formatters self) as Hall.
    rewrite Forall_forall in Hall. now apply Hall.
  - repeat apply conj; by_evaluation.
Qed.

(** C6 (the code departs from it).  After [set_max_width(50)] and
    [reset_defaults()] on [AdvancedLogger("app", log_file="logs/a.log")]
    the settings are the defaults again and the console line is the one a
    freshly constructed logger prints, but the line written to the log
    file carries colour codes, where the freshly constructed logger writes
    a plain line. *)
Theorem reset_defaults_file_line_differs_from_fresh_logger :
  @AdvancedLogger.init example_runtime "app" (Some "logs/a.log") true MAX_FIELD_WIDTH ""
     None true false = Some example_file_logger /\
  stdout
    (@AdvancedLogger.log example_runtime
       (AdvancedLogger.reset_defaults (AdvancedLogger.set_max_width 50 example_file_logger))
       example_info no_output)
    = stdout (@AdvancedLogger.log example_runtime example_file_logger example_info no_output) /\
  file_content
    (@AdvancedLogger.log example_runtime
       (AdvancedLogger.reset_defaults (AdvancedLogger.set_max_width 50 example_file_logger))
       example_info no_output)
    "logs/a.log"
    = ["[2025-06-01 12:00:00,000|app.main           |" +:+ PyStr.ESC +:+ "[92mINF"
       +:+ PyStr.ESC +:+ "[0m] hello" +:+ PyStr.NL] /\
  file_content
    (@AdvancedLogger.log example_runtime example_file_logger example_info no_output)
    "logs/a.log"
    = ["[2025-06-01 12:00:00,000|app.main           |INF] hello" +:+ PyStr.NL].
Proof. repeat apply conj; by_evaluation. Qed.

(** ** Counterexamples to the claims as first stated *)

(** C1 as stated fails: [set_coloring(colored_level=False,
    colored_log=True)] does not force whole-line colouring off; the
    console formatter ends with both flags on. *)
Lemma set_coloring_level_off_does_not_force_whole_line_off :
  @AdvancedLogger.init example_runtime "app" None true 20 "" None true false
    = Some example_console_logger /\
  map Handler.formatter
    (AdvancedLogger.handlers (AdvancedLogger.set_coloring false true example_console_logger))
    = [ConsoleF (ConsoleFormatter.mk "" 20 true None true true)] /\
  ConsoleFormatter.colored_log (ConsoleFormatter.init true 20 "" None false true) <> false.
Proof. repeat apply conj; by_evaluation. Qed.

(** C7 as stated fails: with both colouring options off, the level token
    of a WARNING record is the bare short code, not the short code wrapped
    in colour and reset. *)
Lemma console_format_without_colouring_is_plain :
  @ConsoleFormatter.format example_runtime
     (ConsoleFormatter.init true 10 "" None false false) None example_warning_record
    = "[2025-06-01 12:00:00,000|mod.func_|WRN] hello" /\
  @spec_console_format example_runtime
     (ConsoleFormatter.init true 10 "" None false false) None example_warning_record
    = "[2025-06-01 12:00:00,000|mod.func_|" +:+ PyStr.ESC +:+ "[93mWRN" +:+ PyStr.ESC
      +:+ "[0m] hello" /\
  @ConsoleFormatter.format example_runtime
     (ConsoleFormatter.init true 10 "" None false false) None example_warning_record
    <> @spec_console_format example_runtime
         (ConsoleFormatter.init true 10 "" None false false) None example_warning_record.
Proof. repeat apply conj; by_evaluation. Qed.

(** C3 as stated fails: with [skip=True] and default [-1], a callable that
    raises [KeyboardInterrupt] does not make the wrapper return [-1]; the
    exception leaves the wrapper and neither an ERROR nor a WARNING entry
    is logged. *)
Lemma suppressing_wrapper_lets_KeyboardInterrupt_out :
  fst (@log_funcall example_runtime _ _ _ "app" (-1) true false interrupted (10, 0) world0)
    = Raised KeyboardInterrupt /\
  fst (@log_funcall example_runtime _ _ _ "app" (-1) true false interrupted (10, 0) world0)
    <> Returned (-1) /\
  journal
    (snd (@log_funcall example_runtime _ _ _ "app" (-1) true false interrupted (10, 0) world0))
    = [].
Proof. repeat apply conj; by_evaluation. Qed.

(** C4 as stated fails: with [skip=False], a callable that raises
    [KeyboardInterrupt] leaves the wrapper without any ERROR entry having
    been logged. *)
Lemma reraising_wrapper_does_not_log_KeyboardInterrupt :
  fst (@AdvancedLogger.log_funcall example_runtime _ _ _ example_console_logger (-1)
         false false interrupted (10, 0) world0)
    = Raised KeyboardInterrupt /\
  ~ (exists en,
       en ∈ journal
              (snd (@AdvancedLogger.log_funcall example_runtime _ _ _ example_console_logger
                      (-1) false false interrupted (10, 0) world0)) /\
       e_level en = logging.ERROR).
Proof.
  split; [vm_compute; reflexivity|].
  intros (en & Hin & _). vm_compute in Hin. inversion Hin.
Qed.

(** C10 as stated fails: with no logger at hand and [skip=True], a method
    that raises [KeyboardInterrupt] does not make the wrapper return the
    default value. *)
Lemma method_logger_lets_KeyboardInterrupt_out :
  MethodLogger.resolve (MethodLogger.mk None (-1) true false "logger") bare_object = None /\
  fst (@MethodLogger.call example_runtime _ _ _
         (MethodLogger.mk None (-1) true false "logger")
         interrupted_method bare_object (10, 0) world0)
    = Raised KeyboardInterrupt /\
  fst (@MethodLogger.call example_runtime _ _ _
         (MethodLogger.mk None (-1) true false "logger")
         interrupted_method bare_object (10, 0) world0)
    <> Returned (-1).
Proof. repeat apply conj; by_evaluation. Qed.

(** ** The theorems at concrete inputs *)

(** [coloring_coupling_whole_line_wins] on [AdvancedLogger("app")] after
    [set_custom_str("X")] and [set_coloring(False, False)], for the call
    [set_coloring(False, True)]. *)
Lemma coloring_coupling_whole_line_wins_witness :
  @AdvancedLogger.init example_runtime "app" None true 20 "" None true false
    = Some example_console_logger /\
  map Handler.formatter
    (List.filter not_file_handler
       (AdvancedLogger.handlers
          (AdvancedLogger.set_coloring false true
             (@apply_ops example_runtime [SetCustomStr "X"; SetColoring false false]
                example_console_logger))))
    = [ConsoleF (ConsoleFormatter.mk "X" 20 true None true true)].
Proof.
  split; [reflexivity|].
  exact (proj1 (@coloring_coupling_whole_line_wins example_runtime
                  "app" None true 20 "" None true false
                  [SetCustomStr "X"; SetColoring false false] false true
                  example_console_logger eq_refl)).
Defined.

(** [set_file_leaves_one_file_sink] on
    [AdvancedLogger("app", log_file="logs/a.log")] after
    [set_file("logs/b.log")], for the call [set_file("logs/c.log")]
    followed by [info("hello")]. *)
Lemma set_file_leaves_one_file_sink_witness :
  @AdvancedLogger.init example_runtime "app" (Some "logs/a.log") true 20 "" None true false
    = Some example_file_logger /\
  @openable example_runtime "logs/c.log" = true /\
  List.filter is_file_handler
    (AdvancedLogger.handlers
       (snd (@AdvancedLogger.set_file example_runtime "logs/c.log"
               (@apply_ops example_runtime [SetFile "logs/b.log"] example_file_logger))))
    = [Handler.new_file 3 "logs/c.log" "a" logging.DEBUG
         (FileF (FileFormatter.mk 20 "" true None))] /\
  file_content
    (@AdvancedLogger.log_all example_runtime
       (snd (@AdvancedLogger.set_file example_runtime "logs/c.log"
               (@apply_ops example_runtime [SetFile "logs/b.log"] example_file_logger)))
       [example_info] no_output)
    "logs/c.log"
    = ["[2025-06-01 12:00:00,000|app.main           |INF] hello" +:+ PyStr.NL].
Proof.
  split; [reflexivity|]. split; [reflexivity|].
  pose proof (@set_file_leaves_one_file_sink example_runtime
                "app" (Some "logs/a.log") true 20 "" None true false
                [SetFile "logs/b.log"] example_file_logger "logs/c.log"
                eq_refl eq_refl) as (_ & _ & Hfile & _ & _ & Hlog).
  split; [exact Hfile|].
  exact (proj1 (Hlog [example_info] no_output)).
Defined.

(** [caller_field_padded_then_cut] at width 10 for the caller
    [mod.func_very_long]. *)
Lemma caller_field_padded_then_cut_witness :
  0 <= 10 /\
  PyStr.len (module_function true 10 example_warning_record) = 10 /\
  module_function true 10 example_warning_record = "|mod.func_".
Proof.
  assert (0 <= 10) as Hw by lia.
  split; [exact Hw|].
  pose proof (caller_field_padded_then_cut 10 example_warning_record Hw)
    as (Hlen & _ & _ & _ & Hex).
  split; [exact Hlen|].
  exact (proj1 (Hex eq_refl eq_refl eq_refl)).
Defined.

(** [method_logger_resolution_and_fallback] for [divide] as a method of
    an object whose [logger] attribute holds a logger, called with a zero
    divisor, and for the same method on an object without a logger. *)
Lemma method_logger_resolution_and_fallback_witness :
  attrs object_with_logger !! "logger" = Some (Some "app") /\
  fst (@MethodLogger.call example_runtime _ _ _
         (MethodLogger.mk None (-1) true true "logger")
         divide_method object_with_logger (10, 0) world0)
    = fst (@log_funcall example_runtime _ _ _ "app" (-1) true true
             divide_method (object_with_logger, (10, 0)) world0) /\
  getattr bare_object "logger" = None /\
  fst (@MethodLogger.call example_runtime _ _ _
         (MethodLogger.mk None (-1) true true "logger")
         divide_method bare_object (10, 0) world0)
    = Returned (-1).
Proof.
  assert (attrs object_with_logger !! "logger" = Some (Some "app")) as Hattr
    by (vm_compute; reflexivity).
  assert (getattr bare_object "logger" = None) as Hnone by (vm_compute; reflexivity).
  split; [exact Hattr|].
  split.
  - pose proof (@method_logger_resolution_and_fallback example_runtime _ _ _
                  (MethodLogger.mk None (-1) true true "logger")
                  divide_method object_with_logger (10, 0) world0) as (_ & Hfound & _).
    exact (proj1 (proj2 (Hfound "app" eq_refl Hattr))).
  - split; [exact Hnone|].
    pose proof (@method_logger_resolution_and_fallback example_runtime _ _ _
                  (MethodLogger.mk None (-1) true true "logger")
                  divide_method bare_object (10, 0) world0) as (_ & _ & Hsilent).
    exact (proj2 (Hsilent eq_refl Hnone)).
Defined.

(** * More of the module *)

(** ** Level names, colours and plain rendering *)

Lemma has_escape_append s t :
  has_escape (s +:+ t) = has_escape s || has_escape t.
Proof.
  induction s as [|c s IH]; [reflexivity|].
  rewrite append_cons. simpl. rewrite IH. now rewrite orb_assoc.
Qed.

Lemma has_escape_spaces n : has_escape (PyStr.spaces n) = false.
Proof. induction n as [|n IH]; [reflexivity | exact IH]. Qed.

Lemma has_escape_take n s : has_escape s = false -> has_escape (PyStr.take n s) = false.
Proof.
  revert s. induction n as [|n IH]; intros [|c s]; simpl; try reflexivity.
  intros Hs. apply orb_false_iff in Hs as [Hc Hs].
  rewrite Hc. simpl. now apply IH.
Qed.

Lemma has_escape_slice_to s stop :
  has_escape s = false -> has_escape (PyStr.slice_to s stop) = false.
Proof.
  intros Hs. unfold PyStr.slice_to.
  destruct (0 <=? stop); now apply has_escape_take.
Qed.

Lemma level_name_no_escape record : has_escape (level_name record) = false.
Proof.
  destruct (level_name_cases record)
    as [[_ ->]|[[_ ->]|[[_ ->]|[[_ ->]|[[_ ->]|(_&_&_&_&_& ->)]]]]]; reflexivity.
Qed.

Lemma module_function_no_escape pf w record :
  has_escape (module_ record) = false ->
  has_escape (funcName record) = false ->
  has_escape (module_function pf w record) = false.
Proof.
  intros Hm Hf. unfold module_function. destruct pf; [|reflexivity].
  apply has_escape_slice_to. unfold PyStr.ljust.
  rewrite !has_escape_append, Hm, Hf, has_escape_spaces. reflexivity.
Qed.

(** The level name is one of six three-character codes: the five of
    [LOG_LEVELS] for the five standard level numbers and ["UNK"] for every
    other number.  An unknown level has no colour of its own: its colour
    is the reset code, which no known level has.  ERROR and CRITICAL share
    one colour. *)
Theorem level_names_fixed_width_unknown_is_UNK (record : LogRecord) :
  String.length (level_name record) = 3%nat /\
  (level_name record = "UNK" <->
   levelno record <> logging.DEBUG /\ levelno record <> logging.INFO /\
   levelno record <> logging.WARNING /\ levelno record <> logging.ERROR /\
   levelno record <> logging.CRITICAL) /\
  (level_name record = "UNK" -> level_color record = COLORS_RESET) /\
  (levelno record = logging.ERROR \/ levelno record = logging.CRITICAL ->
   level_color record = PyStr.ESC +:+ "[91m") /\
  (level_name record <> "UNK" -> level_color record <> COLORS_RESET).
Proof.
  unfold level_color.
  destruct (level_name_cases record)
    as [[Hl ->]|[[Hl ->]|[[Hl ->]|[[Hl ->]|[[Hl ->]|(H1&H2&H3&H4&H5& ->)]]]]].
  6:{ split; [reflexivity|]. split; [split; [intros _; tauto | reflexivity]|].
      split; [intros _; reflexivity|]. split; [intros [?|?]; contradiction|].
      intros Hne. now contradiction Hne. }
  all: split; [reflexivity|].
  all: split; [split; [discriminate | intros (?&?&?&?&?); contradiction]|].
  all: split; [discriminate|].
  all: split; [|intros _; vm_compute; discriminate].
  all: intros [He|He]; rewrite Hl in He; try discriminate He; reflexivity.
Qed.

Lemma level_color_has_escape record : has_escape (level_color record) = true.
Proof.
  unfold level_color.
  destruct (level_name_cases record)
    as [[_ ->]|[[_ ->]|[[_ ->]|[[_ ->]|[[_ ->]|(_&_&_&_&_& ->)]]]]]; reflexivity.
Qed.

Section RenderingProperties.
Context `{Runtime}.

(** The file formatter adds no ANSI escape of its own: when the timestamp,
    the caller's module and function names, the custom string, the message
    and the traceback text hold no escape character, neither does the
    rendered line. *)
Theorem file_format_adds_no_escape
    (self : FileFormatter.t) (ambient : option PyExc) (record : LogRecord) :
  has_escape (timestamp (FileFormatter.time_format self) record) = false ->
  has_escape (module_ record) = false ->
  has_escape (funcName record) = false ->
  has_escape (FileFormatter.custom_str self) = false ->
  has_escape (message record) = false ->
  has_escape (traceback_format_exc ambient) = false ->
  has_escape (FileFormatter.format self ambient record) = false.
Proof.
  intros Hts Hm Hf Hcs Hmsg Htb.
  unfold FileFormatter.format. rewrite append_traceback_eq.
  unfold assemble, custom_field.
  rewrite !has_escape_append, Hts, Hmsg, level_name_no_escape,
    (module_function_no_escape _ _ _ Hm Hf). simpl.
  assert (has_escape
            (if 0 <? PyStr.len (FileFormatter.custom_str self)
             then "|" +:+ FileFormatter.custom_str self else "") = false) as ->.
  { destruct (0 <? _); [|reflexivity]. rewrite has_escape_append, Hcs. reflexivity. }
  simpl. destruct (bool_decide _); [|reflexivity].
  rewrite has_escape_append, Htb. reflexivity.
Qed.

(** A console formatter built with both colouring options off renders
    every record exactly as the file formatter with the same settings
    does. *)
Theorem console_without_colouring_renders_like_file
    pf mw cs tf (ambient : option PyExc) (record : LogRecord) :
  ConsoleFormatter.format (ConsoleFormatter.init pf mw cs tf false false) ambient record =
  FileFormatter.format (FileFormatter.init pf mw cs tf) ambient record.
Proof. reflexivity. Qed.

(** With whole-line colouring asked for, whatever [colored_level] is
    passed: an INFO record is rendered as with level colouring alone, and
    a record of any other level is the file rendering of the same record
    between the level's colour code and the reset code. *)
Theorem whole_line_colouring_wraps_the_file_rendering
    pf mw cs tf (cl : bool) (ambient : option PyExc) (record : LogRecord) :
  ConsoleFormatter.format (ConsoleFormatter.init pf mw cs tf cl true) ambient record =
  if levelno record =? logging.INFO
  then ConsoleFormatter.format (ConsoleFormatter.init pf mw cs tf true false) ambient record
  else level_color record +:+
       FileFormatter.format (FileFormatter.init pf mw cs tf) ambient record +:+
       COLORS_RESET.
Proof.
  rewrite ConsoleFormatter_init_flags.
  unfold ConsoleFormatter.format, ConsoleFormatter.level_str, FileFormatter.format. simpl.
  rewrite level_name_INF.
  destruct cl; simpl; destruct (levelno record =? logging.INFO); reflexivity.
Qed.

(** As soon as one colouring option is on, every line the console
    formatter renders holds an escape character, whatever the record. *)
Theorem console_with_colouring_always_has_escape
    pf mw cs tf (cl cg : bool) (ambient : option PyExc) (record : LogRecord) :
  cl || cg = true ->
  has_escape
    (ConsoleFormatter.format (ConsoleFormatter.init pf mw cs tf cl cg) ambient record) = true.
Proof.
  intros Hc. rewrite ConsoleFormatter_init_flags.
  unfold ConsoleFormatter.format, ConsoleFormatter.level_str. simpl.
  rewrite Hc, level_name_INF.
  destruct (cg && negb (levelno record =? logging.INFO)).
  - now rewrite has_escape_append, level_color_has_escape.
  - rewrite append_traceback_eq. unfold assemble.
    rewrite !has_escape_append, level_color_has_escape. simpl.
    now rewrite !orb_true_r.
Qed.

(** A negative field width does not empty the caller field: nothing is
    padded and the last [-w] characters of ["|module.function"] are cut
    off (all of them when there are no more than that). *)
Theorem caller_field_negative_width_cuts_from_the_end (w : Z) (record : LogRecord) :
  w < 0 ->
  let src := "|" +:+ module_ record +:+ "." +:+ funcName record in
  module_function true w record = PyStr.take (Z.to_nat (PyStr.len src + w)) src /\
  PyStr.len (module_function true w record) = Z.max 0 (PyStr.len src + w).
Proof.
  intros Hw src. unfold module_function. fold src.
  rewrite ljust_short by (unfold PyStr.len; lia).
  unfold PyStr.slice_to. destruct (Z.leb_spec 0 w); [lia|].
  split; [reflexivity|].
  unfold PyStr.len. rewrite length_take. unfold PyStr.len. lia.
Qed.

End RenderingProperties.

(** ** More on the logger facade *)

Section MoreFacadeProperties.
Context `{Runtime}.

Lemma log_keeps_files_without_file_sink self c out :
  Forall (fun h => Handler.stream h = Stdout) (AdvancedLogger.handlers self) ->
  files (AdvancedLogger.log self c out) = files out.
Proof.
  intros Hall. unfold AdvancedLogger.log.
  destruct (AdvancedLogger.level self <=? _); [|reflexivity].
  now apply console_handlers_keep_files.
Qed.

Lemma log_all_keeps_files_without_file_sink self cs out :
  Forall (fun h => Handler.stream h = Stdout) (AdvancedLogger.handlers self) ->
  files (AdvancedLogger.log_all self cs out) = files out.
Proof.
  intros Hall. revert out. induction cs as [|c cs IH]; intros out; [reflexivity|].
  change (AdvancedLogger.log_all self (c :: cs) out)
    with (AdvancedLogger.log_all self cs (AdvancedLogger.log self c out)).
  rewrite IH. now apply log_keeps_files_without_file_sink.
Qed.

(** When the path cannot be opened, [set_file] raises after it has removed
    the file handlers: on any logger, the call ends with the error, the
    handlers that are left are the former non-file handlers, no file sink
    remains, the stored path is still the old one, and no later logging
    call writes to any file. *)
Theorem set_file_failure_leaves_no_file_sink (path : string) (self : AdvancedLogger.t) :
  openable path = false ->
  let after := snd (AdvancedLogger.set_file path self) in
  fst (AdvancedLogger.set_file path self) = RaisedOSError /\
  AdvancedLogger.handlers after =
    List.filter not_file_handler (AdvancedLogger.handlers self) /\
  List.filter is_file_handler (AdvancedLogger.handlers after) = [] /\
  AdvancedLogger.log_file after = AdvancedLogger.log_file self /\
  forall (calls : list LogCall) (out : Output),
    files (AdvancedLogger.log_all after calls out) = files out.
Proof.
  intros Hopen after. subst after. rewrite set_file_failed by assumption. simpl.
  split; [reflexivity|]. split; [reflexivity|].
  split; [apply filter_file_of_not_file|]. split; [reflexivity|].
  intros calls out. apply log_all_keeps_files_without_file_sink. simpl.
  apply not_file_handlers_stdout.
Qed.

Lemma filter_map_swap {A B} (g : A -> B) (p : B -> bool) (l : list A) :
  List.filter p (map g l) = map g (List.filter (fun a => p (g a)) l).
Proof.
  induction l as [|a l IH]; simpl; [reflexivity|].
  destruct (p (g a)); simpl; now rewrite IH.
Qed.

Lemma filter_all_true {A} (p : A -> bool) (l : list A) :
  Forall (fun a => p a = true) l -> List.filter p l = l.
Proof.
  induction 1 as [|a l Ha Hl IH]; simpl; [reflexivity|].
  rewrite Ha. now rewrite IH.
Qed.

(** What the handlers at level DEBUG write to the console for one record
    of a logging method: one line per console handler that can render the
    record, in handler order. *)
Lemma callHandlers_stdout (hs : list Handler.t) ambient record out :
  Forall (fun h => Handler.level h = logging.DEBUG) hs ->
  logging.DEBUG <= levelno record ->
  stdout (fold_left (fun out h => Handler.handle h ambient record out) hs out) =
  (stdout out ++
   map (fun h => Handler.format h ambient record +:+ PyStr.NL)
       (List.filter
          (fun h => not_file_handler h && negb (Handler.format_raises h record)) hs))%list.
Proof.
  intros Hall Hlvl. revert out.
  induction Hall as [|h hs Hh Hhs IH]; intros out; simpl.
  - now rewrite app_nil_r.
  - rewrite IH. unfold Handler.handle. rewrite Hh.
    destruct (Z.leb_spec logging.DEBUG (levelno record)); [|lia].
    unfold Handler.emit, not_file_handler, Handler.isinstance, Handler.class.
    destruct (Handler.format_raises h record); simpl.
    + now rewrite andb_false_r.
    + destruct (Handler.stream h); simpl; [now rewrite <- app_assoc | reflexivity].
Qed.

(** What a run of logging calls writes to the console on a well-formed
    logger. *)
Lemma log_all_stdout (self : AdvancedLogger.t) (calls : list LogCall) (out : Output) :
  well_formed self ->
  let f :=
    ConsoleFormatter.init (AdvancedLogger.put_func_name self)
      (AdvancedLogger.max_width self) (AdvancedLogger.custom_str self)
      (AdvancedLogger.time_format self) (AdvancedLogger.colored_level self)
      (AdvancedLogger.colored_log self) in
  stdout (AdvancedLogger.log_all self calls out) =
  (stdout out ++
   map (fun c => ConsoleFormatter.format f (lc_ambient c) (AdvancedLogger.makeRecord c)
                 +:+ PyStr.NL)
       (List.filter
          (fun c => negb (ConsoleFormatter.format_raises f (AdvancedLogger.makeRecord c)))
          calls))%list.
Proof.
  intros (Hl & (h & Hh & Hf) & Hall) f.
  assert (Forall (fun h => Handler.level h = logging.DEBUG) (AdvancedLogger.handlers self))
    as Hlevels by (eapply Forall_impl; [exact Hall|]; intros y Hy; apply Hy).
  assert (forall record,
            List.filter
              (fun h => not_file_handler h && negb (Handler.format_raises h record))
              (AdvancedLogger.handlers self) =
            if ConsoleFormatter.format_raises f record then [] else [h]) as Hone.
  { intros record.
    assert (forall l : list Handler.t,
              List.filter
                (fun h => not_file_handler h && negb (Handler.format_raises h record)) l =
              List.filter (fun h => negb (Handler.format_raises h record))
                (List.filter not_file_handler l)) as Hsplit.
    { induction l as [|y l IHl]; simpl; [reflexivity|].
      destruct (not_file_handler y); simpl; [|exact IHl].
      destruct (Handler.format_raises y record); simpl; now rewrite IHl. }
    rewrite Hsplit, Hh. simpl. unfold Handler.format_raises. rewrite Hf. simpl.
    fold f. now destruct (ConsoleFormatter.format_raises f record). }
  revert out. induction calls as [|c calls IH]; intros out.
  - simpl. now rewrite app_nil_r.
  - change (AdvancedLogger.log_all self (c :: calls) out)
      with (AdvancedLogger.log_all self calls (AdvancedLogger.log self c out)).
    rewrite IH. simpl.
    unfold AdvancedLogger.log. rewrite Hl.
    pose proof (severity_at_least_DEBUG (lc_severity c)) as Hsev.
    destruct (Z.leb_spec logging.DEBUG (severity_levelno (lc_severity c))); [|lia].
    unfold AdvancedLogger.callHandlers.
    rewrite callHandlers_stdout by (assumption || exact Hsev).
    rewrite Hone.
    destruct (ConsoleFormatter.format_raises f (AdvancedLogger.makeRecord c)); simpl.
    + now rewrite app_nil_r.
    + unfold Handler.format. rewrite Hf. simpl. fold f. now rewrite <- app_assoc.
Qed.

(** On a logger built by [__init__] and reconfigured in any way, a call of
    a logging method never writes more than one line to the console: it
    writes exactly one, rendered by a console formatter for the logger's
    current settings, when that rendering goes through, and none when the
    rendering raises (the handler swallows the error).  Attaching,
    replacing or failing to attach a file sink never duplicates or drops
    console output. *)
Theorem every_call_reaches_the_console_once
    name log_file pf mw cs tf cl cg (ops : list ConfigOp)
    (self0 : AdvancedLogger.t) (calls : list LogCall) (out : Output) :
  AdvancedLogger.init name log_file pf mw cs tf cl cg = Some self0 ->
  let self := apply_ops ops self0 in
  let f :=
    ConsoleFormatter.init (AdvancedLogger.put_func_name self) (AdvancedLogger.max_width self)
      (AdvancedLogger.custom_str self) (AdvancedLogger.time_format self)
      (AdvancedLogger.colored_level self) (AdvancedLogger.colored_log self) in
  stdout (AdvancedLogger.log_all self calls out) =
  (stdout out ++
   map (fun c => ConsoleFormatter.format f (lc_ambient c) (AdvancedLogger.makeRecord c)
                 +:+ PyStr.NL)
       (List.filter
          (fun c => negb (ConsoleFormatter.format_raises f (AdvancedLogger.makeRecord c)))
          calls))%list.
Proof.
  intros Hinit self f. apply log_all_stdout.
  apply apply_ops_well_formed. eapply init_well_formed. eassumption.
Qed.

(** [test_my_logger] on a logger built by [__init__] and reconfigured in
    any way writes at most five lines to the console: in the order DEBUG,
    INFO, WARNING, ERROR, CRITICAL, one line for each of the five messages
    whose record the console formatter for the logger's current settings
    can render, from a record without exception information (so no
    traceback follows the error and critical lines).  When the field
    width is within the limits of strings and the timestamps can be
    formatted, these are all five. *)
Theorem test_my_logger_writes_five_console_lines
    name log_file pf mw cs tf cl cg (ops : list ConfigOp) (self0 : AdvancedLogger.t)
    (module_name : string) (created : Severity -> Z) (out : Output) :
  AdvancedLogger.init name log_file pf mw cs tf cl cg = Some self0 ->
  let self := apply_ops ops self0 in
  let f :=
    ConsoleFormatter.init (AdvancedLogger.put_func_name self) (AdvancedLogger.max_width self)
      (AdvancedLogger.custom_str self) (AdvancedLogger.time_format self)
      (AdvancedLogger.colored_level self) (AdvancedLogger.colored_log self) in
  let record sev msg :=
    mkLogRecord (severity_levelno sev) module_name "test_my_logger" msg (created sev)
      None true in
  let line sm := ConsoleFormatter.format f None (record (fst sm) (snd sm)) +:+ PyStr.NL in
  let messages :=
    [(DEBUG, "This is a debug message."); (INFO, "This is an info message.");
     (WARNING, "This is a warning message."); (ERROR, "This is an error message.");
     (CRITICAL, "This is a critical message.")] in
  stdout (test_my_logger self module_name created out) =
    (stdout out ++
     map line
       (List.filter
          (fun sm => negb (ConsoleFormatter.format_raises f (record (fst sm) (snd sm))))
          messages))%list /\
  (Forall (fun sm => ConsoleFormatter.format_raises f (record (fst sm) (snd sm)) = false)
          messages ->
   stdout (test_my_logger self module_name created out) =
     (stdout out ++ map line messages)%list).
Proof.
  intros Hinit self f record line messages.
  assert (well_formed self) as Hwf
    by (apply apply_ops_well_formed; eapply init_well_formed; eassumption).
  assert (stdout (test_my_logger self module_name created out) =
          (stdout out ++
           map line
             (List.filter
                (fun sm => negb (ConsoleFormatter.format_raises f (record (fst sm) (snd sm))))
                messages))%list) as Hlines.
  { change (test_my_logger self module_name created out)
      with (AdvancedLogger.log_all self
              (map (fun sm => mkLogCall (fst sm) (snd sm) module_name "test_my_logger"
                                (created (fst sm)) None None true) messages) out).
    rewrite log_all_stdout by exact Hwf. cbv zeta. f_equal.
    rewrite filter_map_swap, map_map. reflexivity. }
  split; [exact Hlines|].
  intros Hok. rewrite Hlines. f_equal. f_equal.
  apply filter_all_true. eapply Forall_impl; [exact Hok|].
  intros sm Hsm. simpl in Hsm. now rewrite Hsm.
Qed.

Lemma map_setFormatter_twice f g (hs : list Handler.t) :
  map (Handler.setFormatter f) (map (Handler.setFormatter g) hs) =
  map (Handler.setFormatter f) hs.
Proof. rewrite map_map. apply map_ext. intros h. reflexivity. Qed.

Lemma reset_defaults_after_setting_change op self :
  is_setting_change op = true ->
  AdvancedLogger.reset_defaults (apply_op op self) = AdvancedLogger.reset_defaults self.
Proof.
  intros Hop. destruct op; try discriminate; simpl;
    unfold AdvancedLogger.reset_defaults, AdvancedLogger.set_custom_str,
      AdvancedLogger.set_put_func_name, AdvancedLogger.set_max_width,
      AdvancedLogger.set_time_format, AdvancedLogger.set_coloring;
    rewrite !reset_formatters_spec; destruct self; simpl;
    rewrite ?map_setFormatter_twice; reflexivity.
Qed.

Lemma setting_change_twice op self :
  is_setting_change op = true ->
  apply_op op (apply_op op self) = apply_op op self.
Proof.
  intros Hop. destruct op; try discriminate; simpl;
    unfold AdvancedLogger.reset_defaults, AdvancedLogger.set_custom_str,
      AdvancedLogger.set_put_func_name, AdvancedLogger.set_max_width,
      AdvancedLogger.set_time_format, AdvancedLogger.set_coloring;
    rewrite !reset_formatters_spec; destruct self; simpl;
    rewrite ?map_setFormatter_twice; reflexivity.
Qed.

(** [reset_defaults] wipes out every earlier change of a setting: after
    any run of reconfiguration calls other than [set_file], it leaves the
    logger in the very state it would leave it in without them.  Each of
    these calls is also idempotent: making it twice changes nothing
    more. *)
Theorem reset_defaults_absorbs_setting_changes
    (ops : list ConfigOp) (self : AdvancedLogger.t) :
  forallb is_setting_change ops = true ->
  AdvancedLogger.reset_defaults (apply_ops ops self) = AdvancedLogger.reset_defaults self /\
  Forall (fun op => forall l, apply_op op (apply_op op l) = apply_op op l) ops.
Proof.
  intros Hops. split.
  - revert self. induction ops as [|op ops IH]; intros self; [reflexivity|].
    simpl in Hops. apply andb_true_iff in Hops as [Hop Hops].
    simpl. rewrite IH by assumption. now apply reset_defaults_after_setting_change.
  - apply Forall_forall. intros op Hin l. apply setting_change_twice.
    rewrite forallb_forall in Hops. apply Hops. now apply list_elem_of_In.
Qed.

Lemma sink_of_setFormatter f (hs : list Handler.t) :
  map sink_of (map (Handler.setFormatter f) hs) = map sink_of hs.
Proof. rewrite map_map. apply map_ext. intros h. reflexivity. Qed.

Lemma setting_change_keeps_sinks op self :
  is_setting_change op = true ->
  map sink_of (AdvancedLogger.handlers (apply_op op self)) =
    map sink_of (AdvancedLogger.handlers self) /\
  AdvancedLogger.log_file (apply_op op self) = AdvancedLogger.log_file self /\
  AdvancedLogger.level (apply_op op self) = AdvancedLogger.level self.
Proof.
  intros Hop. destruct op; try discriminate;
    unfold apply_op, AdvancedLogger.reset_defaults, AdvancedLogger.set_custom_str,
      AdvancedLogger.set_put_func_name, AdvancedLogger.set_max_width,
      AdvancedLogger.set_time_format, AdvancedLogger.set_coloring;
    rewrite !reset_formatters_spec;
    cbn [AdvancedLogger.handlers AdvancedLogger.with_handlers AdvancedLogger.log_file
         AdvancedLogger.level];
    rewrite sink_of_setFormatter; repeat split; reflexivity.
Qed.

(** Changing a setting never touches the sinks themselves: after any run
    of reconfiguration calls other than [set_file], on any logger, the
    handlers are the same objects in the same order, writing to the same
    places at the same levels (only their formatters may differ), and the
    stored log file path and the logger's level are unchanged. *)
Theorem setting_changes_keep_the_sinks (ops : list ConfigOp) (self : AdvancedLogger.t) :
  forallb is_setting_change ops = true ->
  map sink_of (AdvancedLogger.handlers (apply_ops ops self)) =
    map sink_of (AdvancedLogger.handlers self) /\
  AdvancedLogger.log_file (apply_ops ops self) = AdvancedLogger.log_file self /\
  AdvancedLogger.level (apply_ops ops self) = AdvancedLogger.level self.
Proof.
  revert self. induction ops as [|op ops IH]; intros self Hops; [repeat split|].
  simpl in Hops. apply andb_true_iff in Hops as [Hop Hops].
  simpl. destruct (IH (apply_op op self) Hops) as (H1 & H2 & H3).
  destruct (setting_change_keeps_sinks op self Hop) as (K1 & K2 & K3).
  rewrite H1, H2, H3. auto.
Qed.

(** How construction ends.  [__init__] raises exactly when a non-empty
    log file path is given that cannot be opened.  Otherwise the logger
    stores the path and the settings as given, is at level DEBUG, and has
    a console handler first and, only for a non-empty path, one file
    handler in append mode after it: an empty path is stored but attaches
    no file sink. *)
Theorem init_attaches_console_and_optional_file_sink
    name (log_file : option string) pf mw cs tf cl cg :
  let made := AdvancedLogger.init name log_file pf mw cs tf cl cg in
  let wants_file :=
    match log_file with Some p => PyStr.truthy p | None => false end in
  (made = None <->
   exists p, log_file = Some p /\ PyStr.truthy p = true /\ openable p = false) /\
  (forall self, made = Some self ->
     AdvancedLogger.log_file self = log_file /\
     AdvancedLogger.level self = logging.DEBUG /\
     (AdvancedLogger.put_func_name self, AdvancedLogger.max_width self,
      AdvancedLogger.custom_str self, AdvancedLogger.time_format self,
      AdvancedLogger.colored_level self, AdvancedLogger.colored_log self)
       = (pf, mw, cs, tf, cl, cg) /\
     map Handler.stream (AdvancedLogger.handlers self) =
       Stdout ::
       (if wants_file
        then match log_file with Some p => [FileStream p "a"] | None => [] end
        else []) /\
     map Handler.formatter (AdvancedLogger.handlers self) =
       ConsoleF (ConsoleFormatter.init pf mw cs tf cl cg) ::
       (if wants_file then [FileF (FileFormatter.init pf mw cs tf)] else [])).
Proof.
  intros made wants_file. subst made wants_file. rewrite init_value. simpl.
  destruct log_file as [p|]; [destruct (PyStr.truthy p) eqn:Ht;
                               [destruct (openable p) eqn:Ho|]|]; simpl; split.
  all: try (split; [discriminate | intros (q & Hq & Hqt & Hqo); congruence]).
  all: try (intros self [= <-]; simpl; repeat split; reflexivity).
  all: try (intros self [=]).
  split; [intros _; eauto | reflexivity].
Qed.

End MoreFacadeProperties.

(** ** [get_logger] *)

Section GetLoggerProperties.
Context `{Runtime}.

Lemma existsb_StreamHandler (hs : list Handler.t) :
  existsb (fun h => Handler.isinstance h StreamHandler) hs =
  match hs with [] => false | _ :: _ => true end.
Proof. destruct hs as [|h hs]; simpl; [reflexivity|]. now rewrite isinstance_StreamHandler. Qed.

Lemma existsb_file_false_not_in (f : Handler.t) (hs : list Handler.t) :
  is_file_handler f = true ->
  existsb (fun h => Handler.isinstance h FileHandler) hs = false ->
  f ∉ hs.
Proof.
  intros Hf Hex Hin. apply list_elem_of_In in Hin.
  assert (existsb (fun h => Handler.isinstance h FileHandler) hs = true) as Hc
    by (apply existsb_exists; exists f; split; assumption).
  congruence.
Qed.

(** [get_logger], computed: the handler list of the logger after the
    call, from the one before. *)
Lemma get_logger_value name log_file pf mw cs tf cl cg reg :
  get_logger name log_file pf mw cs tf cl cg reg =
  let before := PlainLogger.handlers (getLogger name reg) in
  let console :=
    Handler.new_console (next_handler reg) logging_NOTSET
      (ConsoleF (ConsoleFormatter.init pf mw cs tf cl cg)) in
  let with_console := match before with [] => [console] | _ :: _ => before end in
  let registered hs n :=
    mkRegistry (<[name := PlainLogger.mk logging.DEBUG hs]> (loggers reg)) n in
  match log_file with
  | Some p =>
      if PyStr.truthy p then
        if openable p then
          (Normal,
           registered
             (if existsb (fun h => Handler.isinstance h FileHandler) with_console
              then with_console
              else (with_console ++
                    [Handler.new_file (S (next_handler reg)) p "a" logging_NOTSET
                       (FileF (FileFormatter.init pf mw cs tf))])%list)
             (S (S (next_handler reg))))
        else (RaisedOSError, registered with_console (S (next_handler reg)))
      else (Normal, registered with_console (S (next_handler reg)))
  | None => (Normal, registered with_console (S (next_handler reg)))
  end.
Proof.
  unfold get_logger. cbv zeta.
  set (lg := getLogger name reg).
  assert ((if negb (existsb (fun h => Handler.isinstance h StreamHandler)
                      (PlainLogger.handlers (PlainLogger.setLevel logging.DEBUG lg)))
           then PlainLogger.addHandler
                  (Handler.new_console (next_handler reg) logging_NOTSET
                     (ConsoleF (ConsoleFormatter.init pf mw cs tf cl cg)))
                  (PlainLogger.setLevel logging.DEBUG lg)
           else PlainLogger.setLevel logging.DEBUG lg) =
          PlainLogger.mk logging.DEBUG
            match PlainLogger.handlers lg with
            | [] => [Handler.new_console (next_handler reg) logging_NOTSET
                       (ConsoleF (ConsoleFormatter.init pf mw cs tf cl cg))]
            | _ :: _ => PlainLogger.handlers lg
            end) as ->.
  { rewrite existsb_StreamHandler. simpl.
    destruct (PlainLogger.handlers lg) as [|h hs] eqn:Hhs; simpl.
    - unfold PlainLogger.addHandler. simpl. rewrite Hhs.
      rewrite bool_decide_eq_false_2 by apply not_elem_of_nil. reflexivity.
    - unfold PlainLogger.setLevel. now rewrite Hhs. }
  destruct log_file as [p|]; [|reflexivity].
  destruct (PyStr.truthy p); [|reflexivity].
  destruct (openable p); [|reflexivity].
  simpl. f_equal. f_equal. f_equal.
  destruct (existsb _ _) eqn:Hex; simpl; [reflexivity|].
  unfold PlainLogger.addHandler. simpl.
  rewrite bool_decide_eq_false_2; [reflexivity|].
  apply existsb_file_false_not_in; [reflexivity | exact Hex].
Qed.

Lemma get_logger_keeps_registry_ok name log_file pf mw cs tf cl cg reg :
  registry_ok reg ->
  registry_ok (snd (get_logger name log_file pf mw cs tf cl cg reg)).
Proof.
  intros Hok. rewrite get_logger_value. cbv zeta.
  set (console := Handler.new_console _ _ _).
  set (with_console := match PlainLogger.handlers (getLogger name reg) with
                       | [] => [console] | _ :: _ => _ end).
  assert (console_then_optional_file with_console) as Hshape.
  { subst with_console. unfold getLogger.
    destruct (loggers reg !! name) as [lg|] eqn:Hlg; simpl.
    - destruct (Hok name lg Hlg) as [_ (c & Hc & [Hhs|(f & p & Hhs & Hf)])];
        rewrite Hhs; exists c; split; eauto.
    - exists console. split; [reflexivity | now left]. }
  assert (forall hs n,
            console_then_optional_file hs ->
            registry_ok
              (mkRegistry (<[name := PlainLogger.mk logging.DEBUG hs]> (loggers reg)) n))
    as Hreg.
  { intros hs n Hhs name' lg'. simpl.
    rewrite lookup_insert. case_decide as Hname.
    - intros [= <-]. simpl. split; [reflexivity | exact Hhs].
    - apply Hok. }
  destruct log_file as [p|]; [|now apply Hreg].
  destruct (PyStr.truthy p); [|now apply Hreg].
  destruct (openable p); [|now apply Hreg].
  simpl. apply Hreg.
  destruct (existsb _ with_console) eqn:Hex; [exact Hshape|].
  destruct Hshape as (c & Hc & [Hhs|(f & q & Hhs & Hf)]).
  - rewrite Hhs. exists c. split; [exact Hc|]. right.
    eexists _, p. split; reflexivity.
  - exfalso. rewrite Hhs in Hex. simpl in Hex.
    assert (Handler.isinstance f FileHandler = true) as Hfile
      by (apply isinstance_FileHandler_stream; eauto).
    rewrite Hfile in Hex. now rewrite orb_true_r in Hex.
Qed.

Lemma get_logger_calls_registry_ok (calls : list GetLoggerCall) :
  registry_ok (get_logger_calls calls empty_registry).
Proof.
  assert (forall reg, registry_ok reg -> registry_ok (get_logger_calls calls reg)) as Hall.
  { induction calls as [|c cs IH]; intros reg Hreg; [exact Hreg|].
    simpl. apply IH. unfold get_logger_call. now apply get_logger_keeps_registry_ok. }
  apply Hall. intros n l. simpl. rewrite lookup_empty. discriminate.
Qed.

(** However [get_logger] is called, and however often, for whatever
    names, paths and options, whether the calls return or raise: every
    logger it has handed out is at level DEBUG and has exactly one console
    handler, followed by at most one file handler (in append mode).
    Repeated calls never pile up handlers. *)
Theorem get_logger_never_duplicates_handlers
    (calls : list GetLoggerCall) (name : string) (lg : PlainLogger.t) :
  loggers (get_logger_calls calls empty_registry) !! name = Some lg ->
  PlainLogger.level lg = logging.DEBUG /\
  console_then_optional_file (PlainLogger.handlers lg) /\
  (length (PlainLogger.handlers lg) <= 2)%nat /\
  length (List.filter not_file_handler (PlainLogger.handlers lg)) = 1%nat.
Proof.
  intros Hlg.
  destruct (get_logger_calls_registry_ok calls name lg Hlg) as [Hlevel Hshape].
  split; [exact Hlevel|]. split; [exact Hshape|].
  destruct Hshape as (c & Hc & [Hhs|(f & p & Hhs & Hf)]); rewrite Hhs; simpl;
    unfold not_file_handler, Handler.isinstance, Handler.class;
    rewrite Hc; try rewrite Hf; simpl; split; lia.
Qed.

(** Handlers are attached once and never replaced.  For a logger that
    [get_logger] has handed out before:  a later call without a log file
    leaves the logger as it is, whatever formatting options it passes;
    when the logger already has a file handler, so does any later call,
    with any path (the new path is not used and the old file stays the
    sink);  when it has only the console handler and the call names a
    path that can be opened, a file handler with the options of this call
    is appended while the console handler keeps the formatter it was
    given first.  No other registered logger is touched by a call. *)
Theorem get_logger_keeps_existing_handlers
    (calls : list GetLoggerCall) (name : string) (lg : PlainLogger.t)
    (log_file : option string) pf mw cs tf cl cg :
  let reg := get_logger_calls calls empty_registry in
  let after := snd (get_logger name log_file pf mw cs tf cl cg reg) in
  loggers reg !! name = Some lg ->
  (log_file = None -> loggers after !! name = Some lg) /\
  (existsb (fun h => Handler.isinstance h FileHandler) (PlainLogger.handlers lg) = true ->
   loggers after !! name = Some lg) /\
  (forall p c,
     log_file = Some p -> PyStr.truthy p = true -> openable p = true ->
     PlainLogger.handlers lg = [c] ->
     loggers after !! name =
       Some (PlainLogger.mk logging.DEBUG
               [c; Handler.new_file (S (next_handler reg)) p "a" logging_NOTSET
                     (FileF (FileFormatter.init pf mw cs tf))])) /\
  (forall other, other <> name -> loggers after !! other = loggers reg !! other).
Proof.
  intros reg after Hlg.
  destruct (get_logger_calls_registry_ok calls name lg Hlg)
    as (Hlevel & (c0 & Hc0 & Hshape)).
  assert (PlainLogger.mk logging.DEBUG (PlainLogger.handlers lg) = lg) as Heta
    by (destruct lg; simpl in *; now subst).
  assert (match PlainLogger.handlers lg with
          | [] => [Handler.new_console (next_handler reg) logging_NOTSET
                     (ConsoleF (ConsoleFormatter.init pf mw cs tf cl cg))]
          | _ :: _ => PlainLogger.handlers lg
          end = PlainLogger.handlers lg) as Hsame
    by (destruct Hshape as [->|(f & p & -> & _)]; reflexivity).
  subst after. rewrite get_logger_value. cbv zeta.
  unfold getLogger. rewrite Hlg, Hsame.
  split; [|split; [|split]].
  - intros ->. simpl. now rewrite lookup_insert_eq, Heta.
  - intros Hfile. rewrite Hfile.
    destruct log_file as [p|]; [destruct (PyStr.truthy p); [destruct (openable p)|]|];
      simpl; now rewrite lookup_insert_eq, Heta.
  - intros p c -> Ht Ho Hhs. rewrite Ht, Ho, Hhs. simpl.
    assert (Handler.isinstance c FileHandler = false) as ->.
    { destruct Hshape as [Hs|(f & q & Hs & _)]; rewrite Hhs in Hs; [|discriminate].
      injection Hs as ->. now apply not_file_handler_stdout. }
    simpl. now rewrite lookup_insert_eq.
  - intros other Hne.
    destruct log_file as [p|]; [destruct (PyStr.truthy p); [destruct (openable p)|]|];
      simpl; now rewrite lookup_insert_ne.
Qed.

(** The first call for a name registers the logger at level DEBUG with a
    console handler carrying the options of that call, and this also when
    the call raises because the log file cannot be opened; a file handler
    is added after it exactly when a non-empty path is given that can be
    opened. *)
Theorem get_logger_first_call
    (reg : Registry) (name : string) (log_file : option string) pf mw cs tf cl cg :
  loggers reg !! name = None ->
  let result := get_logger name log_file pf mw cs tf cl cg reg in
  let console :=
    Handler.new_console (next_handler reg) logging_NOTSET
      (ConsoleF (ConsoleFormatter.init pf mw cs tf cl cg)) in
  let wants_file := match log_file with Some p => PyStr.truthy p | None => false end in
  let can_open := match log_file with Some p => openable p | None => false end in
  fst result = (if wants_file && negb can_open then RaisedOSError else Normal) /\
  loggers (snd result) !! name =
    Some (PlainLogger.mk logging.DEBUG
            (console ::
             (if wants_file && can_open
              then match log_file with
                   | Some p =>
                       [Handler.new_file (S (next_handler reg)) p "a" logging_NOTSET
                          (FileF (FileFormatter.init pf mw cs tf))]
                   | None => []
                   end
              else []))).
Proof.
  intros Hnew result console wants_file can_open.
  subst result wants_file can_open. rewrite get_logger_value. cbv zeta.
  unfold getLogger. rewrite Hnew. simpl.
  destruct log_file as [p|]; [destruct (PyStr.truthy p); [destruct (openable p)|]|];
    simpl; (split; [reflexivity|]); now rewrite lookup_insert_eq.
Qed.

End GetLoggerProperties.

(** ** More on the decorators *)

Section MoreWrapperProperties.
Context `{Runtime}.

(** The wrapper made by the method [AdvancedLogger.log_funcall] behaves as
    the one made by the module-level [log_funcall] bound to the same
    logger: same outcome, same kinds of journal entries in the same order,
    same number of clock readings, same effect on the callable's state.
    Only the wording of the messages differs. *)
Theorem logger_method_wrapper_matches_function_wrapper {A St V : Type}
    (self : AdvancedLogger.t) (default : V) (skip verbose : bool)
    (func : Callable A St V) (args : A) (w : World St) :
  let r := AdvancedLogger.log_funcall self default skip verbose func args w in
  let r' := log_funcall (AdvancedLogger.name self) default skip verbose func args w in
  fst r = fst r' /\
  map entry_kind (journal (snd r)) = map entry_kind (journal (snd r')) /\
  clock (snd r) = clock (snd r') /\
  cstate (snd r) = cstate (snd r').
Proof.
  intros r r'. subst r r'.
  rewrite AdvancedLogger_log_funcall_run, log_funcall_run. simpl.
  destruct (body func args (cstate w)) as [[v|e] s']; simpl;
    [|destruct (exc_is_Exception e); simpl];
    repeat split; destruct verbose; try destruct skip; simpl;
    rewrite ?map_app; reflexivity.
Qed.

(** When the receiving object holds a logger under [loggerVarName], the
    wrapper made by [log_method_call] is the one made by [log_funcall]
    bound to that logger: it produces the same outcome and the same
    world, messages included. *)
Theorem log_method_call_with_logger_is_log_funcall {A St V : Type}
    (default : V) (skip verbose : bool) (loggerVarName : string) (fresh : nat)
    (func : Callable (option PyObject * A) St V)
    (obj : PyObject) (rest : A) (l : LoggerRef) (w : World St) :
  getattr obj loggerVarName = Some l ->
  log_method_call default skip verbose loggerVarName fresh func (Some obj) rest w =
  log_funcall l default skip verbose func (Some obj, rest) w.
Proof.
  intros Hl. unfold log_method_call, log_funcall. rewrite Hl. reflexivity.
Qed.

(** The wrapper made by [log_method_call], run on an object that has no
    logger under [loggerVarName]. *)
Lemma log_method_call_without_logger_run {A St V : Type}
    (default : V) (skip verbose : bool) (loggerVarName : string) (fresh : nat)
    (func : Callable (option PyObject * A) St V)
    (obj : PyObject) (rest : A) (w : World St) :
  getattr obj loggerVarName = None ->
  log_method_call default skip verbose loggerVarName fresh func (Some obj) rest w =
  if verbose then (Raised (AttributeError_None (S fresh) "error"), w)
  else
    match body func (Some obj, rest) (cstate w) with
    | (Returned v, s') => (Returned v, mkWorld (journal w) (S (S (clock w))) s')
    | (Raised e, s') =>
        (if exc_is_Exception e
         then Raised (AttributeError_None (S fresh) "error") else Raised e,
         mkWorld (journal w) (S (clock w)) s')
    end.
Proof.
  intros Hl. unfold log_method_call, try_except_Exception, when, call_logger, invoke,
    time_now, raise, mbind, Py_bind, mret, Py_ret.
  rewrite Hl. destruct verbose; simpl; [reflexivity|].
  destruct (body func (Some obj, rest) (cstate w)) as [[v|e] s']; simpl; [reflexivity|].
  destruct (exc_is_Exception e); reflexivity.
Qed.

(** Without a logger on the receiving object, the wrapper made by
    [log_method_call] never logs, and its error handling breaks down:
    with [verbose] it raises an [AttributeError] and the wrapped method is
    not run at all; without [verbose] a normal result is returned
    unchanged, but an exception derived from [Exception] is replaced by an
    [AttributeError], also when [skip] is set, so the default value is
    never returned.  Called without a receiving object, the wrapper raises
    an [IndexError] before anything else happens. *)
Theorem log_method_call_without_logger {A St V : Type}
    (default : V) (skip verbose : bool) (loggerVarName : string) (fresh : nat)
    (func : Callable (option PyObject * A) St V)
    (obj : PyObject) (rest : A) (w : World St) :
  getattr obj loggerVarName = None ->
  let r := log_method_call default skip verbose loggerVarName fresh func (Some obj) rest w in
  journal (snd r) = journal w /\
  (verbose = true ->
   r = (Raised (AttributeError_None (S fresh) "error"), w)) /\
  (verbose = false ->
   cstate (snd r) = snd (body func (Some obj, rest) (cstate w)) /\
   fst r =
     match fst (body func (Some obj, rest) (cstate w)) with
     | Returned v => Returned v
     | Raised e =>
         if exc_is_Exception e
         then Raised (AttributeError_None (S fresh) "error")
         else Raised e
     end) /\
  log_method_call default skip verbose loggerVarName fresh func None rest w =
    (Raised (IndexError_tuple fresh), w).
Proof.
  intros Hl r. subst r. rewrite log_method_call_without_logger_run by assumption.
  split; [|split; [|split]].
  - destruct verbose; [reflexivity|].
    destruct (body func (Some obj, rest) (cstate w)) as [[v|e] s']; reflexivity.
  - intros ->. reflexivity.
  - intros ->. destruct (body func (Some obj, rest) (cstate w)) as [[v|e] s'];
      split; reflexivity.
  - reflexivity.
Qed.

(** With [skip=True], the wrappers made by [log_funcall],
    [AdvancedLogger.log_funcall] and [MethodLogger] (with or without a
    logger at hand) never let an exception derived from [Exception] out.
    What leaves such a wrapper is the callable's own result, or the
    default value in place of an exception derived from [Exception], or
    the callable's own exception when it does not derive from
    [Exception]. *)
Theorem suppressing_wrappers_never_raise_Exception {A St V : Type}
    (logger : LoggerRef) (self : AdvancedLogger.t) (m : MethodLogger.t V)
    (default : V) (verbose : bool)
    (func : Callable A St V) (args : A)
    (mfunc : Callable (PyObject * A) St V) (obj : PyObject) (w : World St) :
  MethodLogger.skip m = true ->
  let allowed (d : V) (own : Outcome V) (out : Outcome V) :=
    match out with
    | Returned v =>
        own = Returned v \/ (v = d /\ exists e, own = Raised e /\ exc_is_Exception e = true)
    | Raised e => own = Raised e /\ exc_is_Exception e = false
    end in
  allowed default (fst (body func args (cstate w)))
    (fst (log_funcall logger default true verbose func args w)) /\
  allowed default (fst (body func args (cstate w)))
    (fst (AdvancedLogger.log_funcall self default true verbose func args w)) /\
  allowed (MethodLogger.default m) (fst (body mfunc (obj, args) (cstate w)))
    (fst (MethodLogger.call m mfunc obj args w)).
Proof.
  intros Hskip allowed. subst allowed.
  rewrite log_funcall_run, AdvancedLogger_log_funcall_run, MethodLogger_call_run.
  simpl. rewrite Hskip. split; [|split].
  - destruct (body func args (cstate w)) as [[v|e] s']; simpl; [now left|].
    destruct (exc_is_Exception e) eqn:He; simpl; [right; eauto | auto].
  - destruct (body func args (cstate w)) as [[v|e] s']; simpl; [now left|].
    destruct (exc_is_Exception e) eqn:He; simpl; [right; eauto | auto].
  - destruct (body mfunc (obj, args) (cstate w)) as [[v|e] s']; simpl; [now left|].
    destruct (exc_is_Exception e) eqn:He; simpl; [right; eauto | auto].
Qed.

End MoreWrapperProperties.

(** ** The further theorems at concrete inputs *)

(** [file_format_adds_no_escape] for an ERROR record with a traceback. *)
Lemma file_format_adds_no_escape_witness :
  has_escape
    (@FileFormatter.format example_runtime (FileFormatter.mk 20 "X" true None)
       (Some ZeroDivisionError)
       (mkLogRecord logging.ERROR "app" "main" "boom" 0 (Some (Some ZeroDivisionError))
          true))
  = false.
Proof.
  apply (@file_format_adds_no_escape example_runtime); vm_compute; reflexivity.
Defined.

(** [console_with_colouring_always_has_escape] for level colouring alone
    on a WARNING record. *)
Lemma console_with_colouring_always_has_escape_witness :
  true || false = true /\
  has_escape
    (@ConsoleFormatter.format example_runtime
       (ConsoleFormatter.init true 20 "" None true false) None example_warning_record)
  = true.
Proof.
  split; [reflexivity|].
  apply (@console_with_colouring_always_has_escape example_runtime). reflexivity.
Defined.

(** [caller_field_negative_width_cuts_from_the_end] at width -3 for the
    caller [mod.func_very_long]. *)
Lemma caller_field_negative_width_witness :
  -3 < 0 /\ module_function true (-3) example_warning_record = "|mod.func_very_l".
Proof.
  assert (-3 < 0) as Hw by lia.
  split; [exact Hw|].
  exact (proj1 (caller_field_negative_width_cuts_from_the_end (-3) example_warning_record Hw)).
Defined.

(** [set_file_failure_leaves_no_file_sink] on
    [AdvancedLogger("app", log_file="logs/a.log")] for a path outside
    [logs/]. *)
Lemma set_file_failure_witness :
  @openable example_runtime "/root/x.log" = false /\
  map Handler.stream
    (AdvancedLogger.handlers
       (snd (@AdvancedLogger.set_file example_runtime "/root/x.log" example_file_logger)))
    = [Stdout] /\
  AdvancedLogger.log_file
    (snd (@AdvancedLogger.set_file example_runtime "/root/x.log" example_file_logger))
    = Some "logs/a.log".
Proof.
  assert (@openable example_runtime "/root/x.log" = false) as Hopen by reflexivity.
  split; [exact Hopen|].
  pose proof (@set_file_failure_leaves_no_file_sink example_runtime "/root/x.log"
                example_file_logger Hopen) as (_ & Hhs & _ & Hfile & _).
  split; [|exact Hfile].
  rewrite Hhs. reflexivity.
Defined.

(** [every_call_reaches_the_console_once] on
    [AdvancedLogger("app", log_file="logs/a.log")] after
    [set_file("logs/b.log")] and [set_custom_str("X")], for two calls of
    [info("hello")]. *)
Lemma every_call_reaches_the_console_once_witness :
  @AdvancedLogger.init example_runtime "app" (Some "logs/a.log") true 20 "" None true false
    = Some example_file_logger /\
  length
    (stdout
       (@AdvancedLogger.log_all example_runtime
          (@apply_ops example_runtime [SetFile "logs/b.log"; SetCustomStr "X"]
             example_file_logger)
          [example_info; example_info] no_output))
  = 2%nat.
Proof.
  split; [reflexivity|].
  rewrite (@every_call_reaches_the_console_once example_runtime
             "app" (Some "logs/a.log") true 20 "" None true false
             [SetFile "logs/b.log"; SetCustomStr "X"] example_file_logger
             [example_info; example_info] no_output eq_refl).
  reflexivity.
Defined.

(** [test_my_logger_writes_five_console_lines] on [AdvancedLogger("app")]. *)
Lemma test_my_logger_writes_five_console_lines_witness :
  @AdvancedLogger.init example_runtime "app" None true 20 "" None true false
    = Some example_console_logger /\
  length
    (stdout (@test_my_logger example_runtime example_console_logger "demo"
               (fun _ => 0) no_output))
  = 5%nat.
Proof.
  split; [reflexivity|].
  etransitivity;
    [exact (f_equal (@List.length string)
              (proj1 (@test_my_logger_writes_five_console_lines example_runtime
                        "app" None true 20 "" None true false [] example_console_logger
                        "demo" (fun _ => 0) no_output eq_refl)))
    | reflexivity].
Defined.

(** [reset_defaults_absorbs_setting_changes] for
    [set_max_width(50)], [set_coloring(False, True)], [set_custom_str("X")]. *)
Lemma reset_defaults_absorbs_setting_changes_witness :
  forallb is_setting_change [SetMaxWidth 50; SetColoring false true; SetCustomStr "X"] = true /\
  AdvancedLogger.reset_defaults
    (@apply_ops example_runtime [SetMaxWidth 50; SetColoring false true; SetCustomStr "X"]
       example_file_logger)
  = AdvancedLogger.reset_defaults example_file_logger.
Proof.
  split; [reflexivity|].
  exact (proj1 (@reset_defaults_absorbs_setting_changes example_runtime
                  [SetMaxWidth 50; SetColoring false true; SetCustomStr "X"]
                  example_file_logger eq_refl)).
Defined.

(** [setting_changes_keep_the_sinks] for the same calls. *)
Lemma setting_changes_keep_the_sinks_witness :
  forallb is_setting_change [SetMaxWidth 50; SetColoring false true; SetCustomStr "X"] = true /\
  map sink_of
    (AdvancedLogger.handlers
       (@apply_ops example_runtime [SetMaxWidth 50; SetColoring false true; SetCustomStr "X"]
          example_file_logger))
  = [(0%nat, Stdout, logging.DEBUG); (1%nat, FileStream "logs/a.log" "a", logging.DEBUG)].
Proof.
  split; [reflexivity|].
  exact (proj1 (@setting_changes_keep_the_sinks example_runtime
                  [SetMaxWidth 50; SetColoring false true; SetCustomStr "X"]
                  example_file_logger eq_refl)).
Defined.

(** [init_attaches_console_and_optional_file_sink] for an empty path. *)
Lemma init_attaches_console_and_optional_file_sink_witness :
  exists self,
    @AdvancedLogger.init example_runtime "app" (Some "") true 20 "" None true false
      = Some self /\
    AdvancedLogger.log_file self = Some "" /\
    map Handler.stream (AdvancedLogger.handlers self) = [Stdout].
Proof.
  eexists. split; [reflexivity|].
  pose proof (proj2 (@init_attaches_console_and_optional_file_sink example_runtime
                       "app" (Some "") true 20 "" None true false) _ eq_refl)
    as (Hfile & _ & _ & Hstreams & _).
  split; [exact Hfile | exact Hstreams].
Defined.

(** [get_logger_never_duplicates_handlers] after three calls for the same
    name, two of them with a log file. *)
Lemma get_logger_never_duplicates_handlers_witness :
  exists lg,
    loggers
      (@get_logger_calls example_runtime
         [mkGetLoggerCall "app" None true 20 "" None true false;
          mkGetLoggerCall "app" (Some "logs/a.log") false 10 "X" None false false;
          mkGetLoggerCall "app" (Some "logs/b.log") true 20 "" None true true]
         empty_registry) !! "app" = Some lg /\
    length (List.filter not_file_handler (PlainLogger.handlers lg)) = 1%nat /\
    map Handler.stream (PlainLogger.handlers lg) = [Stdout; FileStream "logs/a.log" "a"].
Proof.
  eexists. split; [reflexivity|].
  split; [|reflexivity].
  exact (proj2 (proj2 (proj2
           (@get_logger_never_duplicates_handlers example_runtime
              [mkGetLoggerCall "app" None true 20 "" None true false;
               mkGetLoggerCall "app" (Some "logs/a.log") false 10 "X" None false false;
               mkGetLoggerCall "app" (Some "logs/b.log") true 20 "" None true true]
              "app" _ eq_refl)))).
Defined.

(** [get_logger_keeps_existing_handlers]: a second call with other
    formatting options and no log file leaves the logger of the first call
    as it is. *)
Lemma get_logger_keeps_existing_handlers_witness :
  exists lg,
    loggers
      (@get_logger_calls example_runtime
         [mkGetLoggerCall "app" None true 20 "" None true false] empty_registry) !! "app"
      = Some lg /\
    loggers
      (snd (@get_logger example_runtime "app" None false 10 "X" None false false
              (@get_logger_calls example_runtime
                 [mkGetLoggerCall "app" None true 20 "" None true false] empty_registry)))
      !! "app" = Some lg.
Proof.
  eexists. split; [reflexivity|].
  exact (proj1 (@get_logger_keeps_existing_handlers example_runtime
                  [mkGetLoggerCall "app" None true 20 "" None true false]
                  "app" _ None false 10 "X" None false false eq_refl) eq_refl).
Defined.

(** [get_logger_first_call] for a log file that cannot be opened: the call
    raises, and the logger is registered with its console handler. *)
Lemma get_logger_first_call_witness :
  loggers empty_registry !! "app" = None /\
  fst (@get_logger example_runtime "app" (Some "/root/x.log") true 20 "" None true false
         empty_registry) = RaisedOSError /\
  loggers
    (snd (@get_logger example_runtime "app" (Some "/root/x.log") true 20 "" None true false
            empty_registry)) !! "app"
  = Some (PlainLogger.mk logging.DEBUG
            [Handler.new_console 0 logging_NOTSET
               (ConsoleF (ConsoleFormatter.mk "" 20 true None true false))]).
Proof.
  assert (loggers empty_registry !! "app" = None) as Hnew by reflexivity.
  split; [exact Hnew|].
  exact (@get_logger_first_call example_runtime empty_registry "app" (Some "/root/x.log")
           true 20 "" None true false Hnew).
Defined.

(** [log_method_call_with_logger_is_log_funcall] for [divide] as a method
    of an object that holds a logger, called with a zero divisor. *)
Lemma log_method_call_with_logger_witness :
  getattr object_with_logger "logger" = Some "app" /\
  fst (@log_method_call example_runtime _ _ _ (-1) true false "logger" 100
         (mkCallable "divide" (fun a s => body divide (snd a) s))
         (Some object_with_logger) (10, 0) world0)
  = Returned (-1).
Proof.
  assert (getattr object_with_logger "logger" = Some "app") as Hl by reflexivity.
  split; [exact Hl|].
  rewrite (@log_method_call_with_logger_is_log_funcall example_runtime _ _ _
             (-1) true false "logger" 100
             (mkCallable "divide" (fun a s => body divide (snd a) s))
             object_with_logger (10, 0) "app" world0 Hl).
  reflexivity.
Defined.

(** [log_method_call_without_logger] for [divide] as a method of an object
    without a logger, called with a zero divisor and [skip=True]: an
    [AttributeError] comes out instead of the default value. *)
Lemma log_method_call_without_logger_witness :
  getattr bare_object "logger" = None /\
  fst (@log_method_call example_runtime _ _ _ (-1) true false "logger" 100
         (mkCallable "divide" (fun a s => body divide (snd a) s))
         (Some bare_object) (10, 0) world0)
  = Raised (AttributeError_None 101 "error").
Proof.
  assert (getattr bare_object "logger" = None) as Hl by reflexivity.
  split; [exact Hl|].
  exact (proj2 (proj1 (proj2 (proj2
           (@log_method_call_without_logger example_runtime _ _ _
              (-1) true false "logger" 100
              (mkCallable "divide" (fun a s => body divide (snd a) s))
              bare_object (10, 0) world0 Hl))) eq_refl)).
Defined.

(** [suppressing_wrappers_never_raise_Exception] for [divide] called with
    a zero divisor through the function wrapper and through the method
    wrapper without a logger: what comes out is the default value, in
    place of the [ZeroDivisionError]. *)
Lemma suppressing_wrappers_never_raise_Exception_witness :
  MethodLogger.skip (MethodLogger.mk None (-1) true false "logger") = true /\
  (fst (body divide (10, 0) tt) = Returned (-1) \/
   (-1 = -1 /\
    exists e, fst (body divide (10, 0) tt) = Raised e /\ exc_is_Exception e = true)) /\
  (fst (body divide_method (bare_object, (10, 0)) tt) = Returned (-1) \/
   (-1 = -1 /\
    exists e, fst (body divide_method (bare_object, (10, 0)) tt) = Raised e /\
              exc_is_Exception e = true)).
Proof.
  split; [reflexivity|].
  pose proof (@suppressing_wrappers_never_raise_Exception example_runtime _ _ _
                "app" example_console_logger (MethodLogger.mk None (-1) true false "logger")
                (-1) false divide (10, 0) divide_method bare_object world0 eq_refl)
    as (H1 & _ & H3).
  split; [exact H1 | exact H3].
Defined.

(** ** Further counterexamples to the claims as first stated *)

(** C9 as stated fails.  An ERROR record made by [exc_info=True] outside
    any exception handler carries no exception, yet a newline and the
    text ["NoneType: None"] are appended to its line.  And for a record
    that does carry an exception, rendered while nothing is being
    handled, the appended text is not the trace of that exception. *)
Lemma traceback_appended_to_record_without_exception :
  carries_exception example_error_record_without_exception = false /\
  @FileFormatter.format example_runtime (FileFormatter.mk 20 "" true None) None
     example_error_record_without_exception
    = "[2025-06-01 12:00:00,000|app.main           |ERR] boom" +:+ PyStr.NL
      +:+ "NoneType: None" +:+ PyStr.NL /\
  @FileFormatter.format example_runtime (FileFormatter.mk 20 "" true None) None
     example_error_record_without_exception
    <> @spec_file_format example_runtime (FileFormatter.mk 20 "" true None)
         example_error_record_without_exception /\
  @ConsoleFormatter.format example_runtime
     (ConsoleFormatter.init true 20 "" None false false) None
     example_error_record_without_exception
    = "[2025-06-01 12:00:00,000|app.main           |ERR] boom" +:+ PyStr.NL
      +:+ "NoneType: None" +:+ PyStr.NL /\
  @FileFormatter.format example_runtime (FileFormatter.mk 20 "" true None) None
     example_error_record
    <> @spec_file_format example_runtime (FileFormatter.mk 20 "" true None)
         example_error_record.
Proof. repeat apply conj; by_evaluation. Qed.

(** C5 as stated fails.  On [AdvancedLogger("app", log_file="logs/a.log")],
    after [info("hello")], [set_file("logs/b.log")],
    [set_file("logs/a.log")] and [info("again")], the log file of the most
    recent [set_file] holds two lines: the first comes from the call made
    before that [set_file], so the file does not reflect only the calls
    made after it. *)
Lemma set_file_back_to_an_earlier_path_keeps_its_lines :
  file_content
    (@AdvancedLogger.log example_runtime
       (snd (@AdvancedLogger.set_file example_runtime "logs/a.log"
               (snd (@AdvancedLogger.set_file example_runtime "logs/b.log"
                       example_file_logger))))
       example_info_again
       (@AdvancedLogger.log example_runtime example_file_logger example_info no_output))
    "logs/a.log"
    = ["[2025-06-01 12:00:00,000|app.main           |INF] hello" +:+ PyStr.NL;
       "[2025-06-01 12:00:00,000|app.main           |INF] again" +:+ PyStr.NL] /\
  file_content
    (@AdvancedLogger.log example_runtime
       (snd (@AdvancedLogger.set_file example_runtime "logs/a.log"
               (snd (@AdvancedLogger.set_file example_runtime "logs/b.log"
                       example_file_logger))))
       example_info_again
       (@AdvancedLogger.log example_runtime example_file_logger example_info no_output))
    "logs/a.log"
    <> ["[2025-06-01 12:00:00,000|app.main           |INF] again" +:+ PyStr.NL].
Proof. repeat apply conj; by_evaluation. Qed.
